(** * DOIT Task Manager: the AI-assistant chat client

    A shallow embedding of the three JavaScript sources

    - [frontend/src/services/foundryAgentAPI.js]   (module [Foundry])
    - [frontend/src/services/localAgentAPI.js]     (module [Local])
    - [frontend/src/pages/AIAssistant/AIAssistantPage.js] (module [Page])

    JavaScript values are a small inductive type with the language's
    truthiness; the browser (the two storages, the clock, the random source,
    the log of issued requests) and the React state of the page form a
    [World]; an [async] function is a program in a resumption monad whose
    [Await] nodes are the points where the function is suspended on [fetch]
    and later resumed with the outcome of the request.

    Conventions of the embedding:
    - a call of a state setter takes effect where it stands in the handler,
      and a handler reads the state variables of the render that made it
      (its argument [snap]);
    - a request started without [await] is recorded with what is left to do
      on its answer ([detached]), and is settled by a later event;
    - between events the page is a [Page.View]; the effect on
      [activeConversation?._id] runs in the same step as the change of
      state that triggers it;
    - [run] follows a handler on its own, from one [await] to the next;
      [Session.step] follows it on the page, where the state it leaves at
      an [await] is rendered and the effect may run before the answer;
    - a text is held as the bytes of its UTF-8 encoding;
    - of the page, the handlers for sending (a text or an image prompt),
      creating, deleting, selecting and loading are embedded; rendering,
      scrolling and the upload handler are not. *)

From stdpp Require Import base strings gmap list pretty.
From Stdlib Require Import ZArith Ascii String Bool Lia.

Set Warnings "-register-all".
Local Open Scope string_scope.
Local Open Scope list_scope.

(* ================================================================== *)
(** ** JavaScript values *)
(* ================================================================== *)

(** Numbers are kept to the integers: the sources only ever test a number
    for truthiness.  An object is the list of its own properties. *)
Inductive JSValue : Type :=
| VUndefined
| VNull
| VBool (b : bool)
| VNum (n : Z)
| VStr (s : string)
| VArr (items : list JSValue)
| VObj (fields : list (string * JSValue)).

(** [ToBoolean]: [undefined], [null], [false], [0] and the empty string are
    falsy, everything else (every array and every object) is truthy. *)
Definition truthy (v : JSValue) : bool :=
  match v with
  | VUndefined | VNull => false
  | VBool b => b
  | VNum n => negb (n =? 0)%Z
  | VStr s => negb (String.eqb s "")
  | VArr _ | VObj _ => true
  end.

Definition nullish (v : JSValue) : bool :=
  match v with
  | VUndefined | VNull => true
  | _ => false
  end.

(** [a || b] of JavaScript: the first operand when it is truthy. *)
Definition js_or (a b : JSValue) : JSValue := if truthy a then a else b.

Fixpoint own_property (k : string) (fs : list (string * JSValue)) : JSValue :=
  match fs with
  | [] => VUndefined
  | (k', v) :: rest => if String.eqb k k' then v else own_property k rest
  end.

(** [v.k] for a [v] that is neither [null] nor [undefined], and [v?.k] in
    general.  None of the property names read by the sources ([success],
    [message], [messages], [conversation], [conversations], [detail],
    [error], [_id], [role]) is defined by a prototype, so a primitive or an
    array answers [undefined]. *)
Definition prop (v : JSValue) (k : string) : JSValue :=
  match v with
  | VObj fs => own_property k fs
  | _ => VUndefined
  end.

(** [x === s] for a string [s]. *)
Definition strict_eq_string (x : JSValue) (s : string) : bool :=
  match x with
  | VStr s' => String.eqb s' s
  | _ => false
  end.

(** [Object.is] on primitives, as React compares the dependencies of an
    effect.  Identifiers are primitives in this API; two composite values
    are taken as distinct references. *)
Definition same_value (a b : JSValue) : bool :=
  match a, b with
  | VUndefined, VUndefined => true
  | VNull, VNull => true
  | VBool x, VBool y => Bool.eqb x y
  | VNum x, VNum y => (x =? y)%Z
  | VStr x, VStr y => String.eqb x y
  | _, _ => false
  end.

(** The elements of an array; no other value can be stored where the page
    keeps a list. *)
Definition elements (v : JSValue) : option (list JSValue) :=
  match v with
  | VArr l => Some l
  | _ => None
  end.

(** [localStorage.getItem] and [sessionStorage.getItem] answer a string or
    [null]: an [option string].  Both [null] and the empty string are
    falsy. *)
Definition truthy_item (o : option string) : bool :=
  match o with
  | Some s => negb (String.eqb s "")
  | None => false
  end.

(** A template literal prints [null] as the four letters. *)
Definition template_item (o : option string) : string := default "null" o.

(* ------------------------------------------------------------------ *)
(** *** [String.prototype.trim] *)

(** A text is held as the bytes of its UTF-8 encoding.  [trim] strips the
    white space and the line terminators of the language from both ends:
    TAB, LF, VT, FF, CR and SPACE, each one byte; NO-BREAK SPACE (U+00A0),
    two bytes; and, three bytes each, U+1680, U+2000 to U+200A, U+2028,
    U+2029, U+202F, U+205F, U+3000 and U+FEFF. *)
Definition byte_is (c : ascii) (n : nat) : bool := Nat.eqb (nat_of_ascii c) n.

Definition isWhiteSpace (c : ascii) : bool :=
  match nat_of_ascii c with
  | 9 | 10 | 11 | 12 | 13 | 32 => true
  | _ => false
  end.

(** U+00A0 is C2 A0. *)
Definition isWhiteSpace2 (c1 c2 : ascii) : bool :=
  byte_is c1 194 && byte_is c2 160.

(** U+1680 is E1 9A 80; U+2000 to U+200A are E2 80 80 to E2 80 8A; U+2028,
    U+2029 and U+202F are E2 80 A8, E2 80 A9 and E2 80 AF; U+205F is
    E2 81 9F; U+3000 is E3 80 80; U+FEFF is EF BB BF. *)
Definition isWhiteSpace3 (c1 c2 c3 : ascii) : bool :=
  byte_is c1 225 && byte_is c2 154 && byte_is c3 128
  || byte_is c1 226 && byte_is c2 128 &&
       (Nat.leb 128 (nat_of_ascii c3) && Nat.leb (nat_of_ascii c3) 138
        || byte_is c3 168 || byte_is c3 169 || byte_is c3 175)
  || byte_is c1 226 && byte_is c2 129 && byte_is c3 159
  || byte_is c1 227 && byte_is c2 128 && byte_is c3 128
  || byte_is c1 239 && byte_is c2 187 && byte_is c3 191.

Fixpoint trimStart (s : string) : string :=
  match s with
  | EmptyString => EmptyString
  | String c1 r1 =>
      if isWhiteSpace c1 then trimStart r1 else
      match r1 with
      | String c2 r2 =>
          if isWhiteSpace2 c1 c2 then trimStart r2 else
          match r2 with
          | String c3 r3 => if isWhiteSpace3 c1 c2 c3 then trimStart r3 else s
          | EmptyString => s
          end
      | EmptyString => s
      end
  end.

(** The text is white space from its first byte to its last. *)
Fixpoint whitespace_only (s : string) : bool :=
  match s with
  | EmptyString => true
  | String c1 r1 =>
      if isWhiteSpace c1 then whitespace_only r1 else
      match r1 with
      | String c2 r2 =>
          if isWhiteSpace2 c1 c2 then whitespace_only r2 else
          match r2 with
          | String c3 r3 => isWhiteSpace3 c1 c2 c3 && whitespace_only r3
          | EmptyString => false
          end
      | EmptyString => false
      end
  end.

(** The end of the text goes as soon as all that is left is white space.  No
    white-space character starts with a continuation byte (80 to BF), so
    the test never succeeds in the middle of a character. *)
Fixpoint trimEnd (s : string) : string :=
  match s with
  | EmptyString => EmptyString
  | String c rest => if whitespace_only s then EmptyString else String c (trimEnd rest)
  end.

Definition trim (s : string) : string := trimEnd (trimStart s).

(* ================================================================== *)
(** ** Requests and their outcomes *)
(* ================================================================== *)

Inductive Method := GET | POST | DELETE.

(** The three base paths: [/api/ai-assistant] (the page),
    [/api/foundry-agent] and [/api/local-agent] (the two services). *)
Inductive Service := AiAssistant | FoundryAgent | LocalAgent.

(** The path below the base, with the interpolated identifier kept as the
    value it was. *)
Inductive Route :=
| Conversations
| Conversation (id : JSValue)
| ConversationMessages (id : JSValue)
| GenerateImage (id : JSValue)
| ResetThread
| ThreadMessages
| ResetHistory
| History
| Health.

(** [body] is the object handed to [JSON.stringify]. *)
Record Request := mkRequest {
  service : Service;
  method : Method;
  route : Route;
  headers : gmap string string;
  body : option JSValue
}.

(** What [fetch] resolves with: the [ok] flag of the status line (true for
    2xx) and the parsed body, [None] when the body is not JSON. *)
Record Response := mkResponse {
  ok : bool;
  parsed : option JSValue
}.

(** A request either fails in transport ([fetch] rejects) or is answered. *)
Inductive Outcome :=
| NetworkError
| Answered (r : Response).

(** What can be thrown: the three rejections of the platform, and
    [new Error(v)], kept with the value [v] whose string form is the
    message. *)
Inductive Exn :=
| TypeError
| SyntaxError
| FetchFailed
| Error (message : JSValue).

(* ================================================================== *)
(** ** The world: browser and page state *)
(* ================================================================== *)

(** The sources of values the program cannot compute: the n-th query of the
    environment answers [Math.random().toString(36).substr(2, 12)],
    [Date.now().toString(36)] or [new Date().toISOString()]. *)
Record Env := mkEnv {
  mathRandom36 : nat -> string;
  dateNow36 : nat -> string;
  dateISO : nat -> string
}.

(** The [useState] cells of [AIAssistantPage] that the modelled handlers
    touch. *)
Record UI := mkUI {
  conversations : list JSValue;
  activeConversation : JSValue;
  messages : list JSValue;
  inputText : string;
  isLoading : bool;
  isTyping : bool
}.

(** The continuation of a request that was started without [await]. *)
Inductive Cont := KLoadConversations | KLoadMessages.

Record World := mkWorld {
  ui : UI;
  token : option string;            (* localStorage, key "token" *)
  tab_session_key : option string;  (* sessionStorage, key "tab_session_key" *)
  requests : list Request;          (* every request issued, oldest first *)
  detached : list (Request * Cont); (* issued without await, not yet settled *)
  env : Env;
  ticks : nat                       (* queries of the environment so far *)
}.

Definition with_ui (f : UI -> UI) (w : World) : World :=
  mkWorld (f (ui w)) (token w) (tab_session_key w) (requests w) (detached w)
          (env w) (ticks w).

Definition initialUI : UI := mkUI [] VNull [] "" false false.

(* ================================================================== *)
(** ** Async functions as resumptions *)
(* ================================================================== *)

(** The state of an [async] function: returned, thrown, suspended on a
    request (with the world as it was left at that moment, and the rest of
    the function, to be run on the world as it is at resumption), or having
    put a value that is not an array where the page renders a list. *)
Inductive Res (A : Type) : Type :=
| Done (a : A) (w : World)
| Raise (e : Exn) (w : World)
| Await (rq : Request) (w : World) (k : Outcome -> World -> Res A)
| Unmodelled (w : World).

Arguments Done {A} a w.
Arguments Raise {A} e w.
Arguments Await {A} rq w k.
Arguments Unmodelled {A} w.

Definition Prog (A : Type) : Type := World -> Res A.

Definition ret {A} (a : A) : Prog A := fun w => Done a w.
Definition raise {A} (e : Exn) : Prog A := fun w => Raise e w.

Fixpoint bindRes {A B} (r : Res A) (f : A -> Prog B) : Res B :=
  match r with
  | Done a w => f a w
  | Raise e w => Raise e w
  | Await rq w k => Await rq w (fun o w' => bindRes (k o w') f)
  | Unmodelled w => Unmodelled w
  end.

Definition bind {A B} (m : Prog A) (f : A -> Prog B) : Prog B :=
  fun w => bindRes (m w) f.

Notation "'let*' x ':=' m 'in' k" := (bind m (fun x => k))
  (at level 10, x name, m at level 100, k at level 200).
Notation "m '>>' k" := (bind m (fun _ => k))
  (at level 100, k at level 200, right associativity).

(** [try { body } catch (e) { handler }] *)
Fixpoint catchRes {A} (r : Res A) (handler : Exn -> Prog A) : Res A :=
  match r with
  | Done a w => Done a w
  | Raise e w => handler e w
  | Await rq w k => Await rq w (fun o w' => catchRes (k o w') handler)
  | Unmodelled w => Unmodelled w
  end.

Definition try_catch {A} (block : Prog A) (handler : Exn -> Prog A) : Prog A :=
  fun w => catchRes (block w) handler.

(** [try { ... } finally { finalizer }], for a finalizer that only assigns. *)
Fixpoint finallyRes {A} (r : Res A) (finalizer : World -> World) : Res A :=
  match r with
  | Done a w => Done a (finalizer w)
  | Raise e w => Raise e (finalizer w)
  | Await rq w k => Await rq w (fun o w' => finallyRes (k o w') finalizer)
  | Unmodelled w => Unmodelled w
  end.

Definition try_finally {A} (block : Prog A) (finalizer : World -> World) : Prog A :=
  fun w => finallyRes (block w) finalizer.

Definition modify (f : World -> World) : Prog unit := fun w => Done tt (f w).

(** [v.k] in an expression: a [TypeError] on [null] and [undefined]. *)
Definition member (v : JSValue) (k : string) : Prog JSValue :=
  if nullish v then raise TypeError else ret (prop v k).

(** Feeding the outcomes of its requests, in order, to a suspended
    function taken on its own: each answer finds the state as the function
    left it.  What the page does in between is [Session.step]'s. *)
Fixpoint run {A} (r : Res A) (outcomes : list Outcome) : Res A :=
  match r, outcomes with
  | Await rq w k, o :: rest => run (k o w) rest
  | _, _ => r
  end.

Definition world_of {A} (r : Res A) : World :=
  match r with
  | Done _ w | Raise _ w | Await _ w _ | Unmodelled w => w
  end.

Definition rejected {A} (r : Res A) : bool :=
  match r with
  | Raise _ _ => true
  | _ => false
  end.

(* ------------------------------------------------------------------ *)
(** *** Browser primitives *)

Definition log_request (rq : Request) (w : World) : World :=
  mkWorld (ui w) (token w) (tab_session_key w) (requests w ++ [rq]) (detached w)
          (env w) (ticks w).

(** [await fetch(...)]: the request goes out, the function is suspended, and
    a transport failure is thrown at the point of the [await]. *)
Definition fetch (rq : Request) : Prog Response :=
  fun w => Await rq (log_request rq w)
             (fun o w' => match o with
                          | NetworkError => Raise FetchFailed w'
                          | Answered r => Done r w'
                          end).

(** [await response.json()]: the two suspensions of one exchange are taken
    as one, nothing being read or written between them. *)
Definition json (r : Response) : Prog JSValue :=
  match parsed r with
  | Some data => ret data
  | None => raise SyntaxError
  end.

(** Calling an async function without [await]: it runs up to its [fetch],
    which goes out, and the caller goes on; [c] is what is left to do when
    the request settles. *)
Definition detach (rq : Request) (c : Cont) : Prog unit :=
  modify (fun w => mkWorld (ui w) (token w) (tab_session_key w)
                     (requests w ++ [rq]) (detached w ++ [(rq, c)])
                     (env w) (ticks w)).

Definition tick (w : World) : World :=
  mkWorld (ui w) (token w) (tab_session_key w) (requests w) (detached w)
          (env w) (S (ticks w)).

Definition Math_random36 : Prog string :=
  fun w => Done (mathRandom36 (env w) (ticks w)) (tick w).
Definition Date_now36 : Prog string :=
  fun w => Done (dateNow36 (env w) (ticks w)) (tick w).
Definition Date_toISOString : Prog string :=
  fun w => Done (dateISO (env w) (ticks w)) (tick w).

Definition localStorage_getToken : Prog (option string) :=
  fun w => Done (token w) w.
Definition sessionStorage_getKey : Prog (option string) :=
  fun w => Done (tab_session_key w) w.
Definition sessionStorage_setKey (key : string) : Prog unit :=
  modify (fun w => mkWorld (ui w) (token w) (Some key) (requests w) (detached w)
                     (env w) (ticks w)).

(* ================================================================== *)
(** ** The session key (the same function in each of the three files) *)
(* ================================================================== *)

Definition getTabSessionKey : Prog string :=
  let* key := sessionStorage_getKey in
  if negb (truthy_item key) then
    let* r := Math_random36 in
    let* t := Date_now36 in
    let key := "tab_" +:+ r +:+ "_" +:+ t in
    sessionStorage_setKey key >>
    ret key
  else ret (default "" key).

Definition bearer (t : option string) : string := "Bearer " +:+ template_item t.

(* ================================================================== *)
(** ** foundryAgentAPI.js *)
(* ================================================================== *)

Module Foundry.

Definition getToken : Prog (option string) := localStorage_getToken.

Definition getAuthHeaders : Prog (gmap string string) :=
  let headers : gmap string string := {[ "Content-Type" := "application/json" ]} in
  let* token := getToken in
  let headers :=
    if truthy_item token then <[ "Authorization" := bearer token ]> headers
    else headers in
  let* key := getTabSessionKey in
  let headers := <[ "X-Tab-Session-Key" := key ]> headers in
  ret headers.

(** A parameter with a default value takes it when the argument is
    [undefined]. *)
Definition default_arg (d v : JSValue) : JSValue :=
  match v with
  | VUndefined => d
  | _ => v
  end.

(** [throw new Error(data.detail || data.error || fallback)] *)
Definition throw_error (data : JSValue) (fallback : string) : Prog JSValue :=
  let* detail := member data "detail" in
  raise (Error (js_or detail (js_or (prop data "error") (VStr fallback)))).

Definition createConversation (title : JSValue) : Prog JSValue :=
  let title := default_arg (VStr "Agent Chat") title in
  let* headers := getAuthHeaders in
  let* res := fetch (mkRequest FoundryAgent POST Conversations headers
                       (Some (VObj [("title", title)]))) in
  let* data := json res in
  if negb (ok res) then throw_error data "Failed to create conversation"
  else ret data.

Definition listConversations : Prog JSValue :=
  let* headers := getAuthHeaders in
  let* res := fetch (mkRequest FoundryAgent GET Conversations headers None) in
  let* data := json res in
  if negb (ok res) then throw_error data "Failed to list conversations"
  else ret data.

Definition getMessages (conversationId : JSValue) : Prog JSValue :=
  let* headers := getAuthHeaders in
  let* res := fetch (mkRequest FoundryAgent GET (ConversationMessages conversationId)
                       headers None) in
  let* data := json res in
  if negb (ok res) then throw_error data "Failed to get messages"
  else ret data.

Definition deleteConversation (conversationId : JSValue) : Prog JSValue :=
  let* headers := getAuthHeaders in
  let* res := fetch (mkRequest FoundryAgent DELETE (Conversation conversationId)
                       headers None) in
  let* data := json res in
  if negb (ok res) then throw_error data "Failed to delete conversation"
  else ret data.

Definition sendMessage (conversationId content includeUserContext : JSValue)
  : Prog JSValue :=
  let includeUserContext := default_arg (VBool true) includeUserContext in
  let* headers := getAuthHeaders in
  let* res := fetch (mkRequest FoundryAgent POST (ConversationMessages conversationId)
                       headers
                       (Some (VObj [("content", content);
                                    ("include_user_context", includeUserContext)]))) in
  let* data := json res in
  if negb (ok res) then throw_error data "Failed to send message"
  else ret data.

Definition resetThread : Prog JSValue :=
  let* headers := getAuthHeaders in
  let* res := fetch (mkRequest FoundryAgent POST ResetThread headers None) in
  let* data := json res in
  if negb (ok res) then throw_error data "Failed to reset thread"
  else ret data.

Definition getThreadMessages : Prog JSValue :=
  let* headers := getAuthHeaders in
  let* res := fetch (mkRequest FoundryAgent GET ThreadMessages headers None) in
  let* data := json res in
  if negb (ok res) then throw_error data "Failed to get thread messages"
  else ret data.

Definition health : Prog JSValue :=
  let* headers := getAuthHeaders in
  let* res := fetch (mkRequest FoundryAgent GET Health headers None) in
  let* data := json res in
  if negb (ok res) then throw_error data "Health check failed"
  else ret data.

(** The operations of the exported object, with their arguments. *)
Inductive Op :=
| CreateConversation (title : JSValue)
| ListConversations
| GetMessages (conversationId : JSValue)
| DeleteConversation (conversationId : JSValue)
| SendMessage (conversationId content includeUserContext : JSValue)
| ResetThreadOp
| GetThreadMessages
| HealthOp.

Definition invoke (op : Op) : Prog JSValue :=
  match op with
  | CreateConversation title => createConversation title
  | ListConversations => listConversations
  | GetMessages id => getMessages id
  | DeleteConversation id => deleteConversation id
  | SendMessage id content ctx => sendMessage id content ctx
  | ResetThreadOp => resetThread
  | GetThreadMessages => getThreadMessages
  | HealthOp => health
  end.

(** The message of the [Error] an operation throws when nothing better is
    in the body. *)
Definition fallback (op : Op) : string :=
  match op with
  | CreateConversation _ => "Failed to create conversation"
  | ListConversations => "Failed to list conversations"
  | GetMessages _ => "Failed to get messages"
  | DeleteConversation _ => "Failed to delete conversation"
  | SendMessage _ _ _ => "Failed to send message"
  | ResetThreadOp => "Failed to reset thread"
  | GetThreadMessages => "Failed to get thread messages"
  | HealthOp => "Health check failed"
  end.

End Foundry.

(* ================================================================== *)
(** ** localAgentAPI.js *)
(* ================================================================== *)

Module Local.

Definition getHeaders : Prog (gmap string string) :=
  let* token := localStorage_getToken in
  let* key := getTabSessionKey in
  ret (<[ "Content-Type" := "application/json" ]>
       (<[ "X-Tab-Session-Key" := key ]>
        (<[ "Authorization" := bearer token ]> ∅))).

(** Each operation is [fetch(url, { method, headers: getHeaders(), body })
    .then(r => r.json())]. *)
Definition createConversation (title : JSValue) : Prog JSValue :=
  let title := Foundry.default_arg (VStr "Local AI Chat") title in
  let* headers := getHeaders in
  let* r := fetch (mkRequest LocalAgent POST Conversations headers
                     (Some (VObj [("title", title)]))) in
  json r.

Definition listConversations : Prog JSValue :=
  let* headers := getHeaders in
  let* r := fetch (mkRequest LocalAgent GET Conversations headers None) in
  json r.

Definition getMessages (conversationId : JSValue) : Prog JSValue :=
  let* headers := getHeaders in
  let* r := fetch (mkRequest LocalAgent GET (ConversationMessages conversationId)
                     headers None) in
  json r.

Definition deleteConversation (conversationId : JSValue) : Prog JSValue :=
  let* headers := getHeaders in
  let* r := fetch (mkRequest LocalAgent DELETE (Conversation conversationId)
                     headers None) in
  json r.

Definition sendMessage (conversationId content includeUserContext : JSValue)
  : Prog JSValue :=
  let includeUserContext := Foundry.default_arg (VBool true) includeUserContext in
  let* headers := getHeaders in
  let* r := fetch (mkRequest LocalAgent POST (ConversationMessages conversationId)
                     headers
                     (Some (VObj [("content", content);
                                  ("include_user_context", includeUserContext)]))) in
  json r.

Definition resetHistory : Prog JSValue :=
  let* headers := getHeaders in
  let* r := fetch (mkRequest LocalAgent POST ResetHistory headers None) in
  json r.

Definition getHistory : Prog JSValue :=
  let* headers := getHeaders in
  let* r := fetch (mkRequest LocalAgent GET History headers None) in
  json r.

Definition health : Prog JSValue :=
  let* headers := getHeaders in
  let* r := fetch (mkRequest LocalAgent GET Health headers None) in
  json r.

Inductive Op :=
| CreateConversation (title : JSValue)
| ListConversations
| GetMessages (conversationId : JSValue)
| DeleteConversation (conversationId : JSValue)
| SendMessage (conversationId content includeUserContext : JSValue)
| ResetHistoryOp
| GetHistory
| HealthOp.

Definition invoke (op : Op) : Prog JSValue :=
  match op with
  | CreateConversation title => createConversation title
  | ListConversations => listConversations
  | GetMessages id => getMessages id
  | DeleteConversation id => deleteConversation id
  | SendMessage id content ctx => sendMessage id content ctx
  | ResetHistoryOp => resetHistory
  | GetHistory => getHistory
  | HealthOp => health
  end.

End Local.

(* ================================================================== *)
(** ** AIAssistantPage.js *)
(* ================================================================== *)

Module Page.

Definition getAuthHeaders : Prog (gmap string string) :=
  let* token := localStorage_getToken in
  let* key := getTabSessionKey in
  ret (<[ "Content-Type" := "application/json" ]>
       (<[ "X-Tab-Session-Key" := key ]>
        (<[ "Authorization" := bearer token ]> ∅))).

(** The state setters.  A call takes effect where it stands in the text of
    the handler; [setX(prev => ...)] reads the state of that moment. *)
Definition assignConversations (f : list JSValue -> list JSValue) : World -> World :=
  with_ui (fun u => mkUI (f (conversations u)) (activeConversation u)
                      (messages u) (inputText u) (isLoading u) (isTyping u)).
Definition assignActiveConversation (c : JSValue) : World -> World :=
  with_ui (fun u => mkUI (conversations u) c
                      (messages u) (inputText u) (isLoading u) (isTyping u)).
Definition assignMessages (f : list JSValue -> list JSValue) : World -> World :=
  with_ui (fun u => mkUI (conversations u) (activeConversation u)
                      (f (messages u)) (inputText u) (isLoading u) (isTyping u)).
Definition assignInputText (s : string) : World -> World :=
  with_ui (fun u => mkUI (conversations u) (activeConversation u)
                      (messages u) s (isLoading u) (isTyping u)).
Definition assignIsLoading (b : bool) : World -> World :=
  with_ui (fun u => mkUI (conversations u) (activeConversation u)
                      (messages u) (inputText u) b (isTyping u)).
Definition assignIsTyping (b : bool) : World -> World :=
  with_ui (fun u => mkUI (conversations u) (activeConversation u)
                      (messages u) (inputText u) (isLoading u) b).

Definition setConversations f : Prog unit := modify (assignConversations f).
Definition setActiveConversation c : Prog unit := modify (assignActiveConversation c).
Definition setMessages f : Prog unit := modify (assignMessages f).
Definition setInputText s : Prog unit := modify (assignInputText s).
Definition setIsLoading b : Prog unit := modify (assignIsLoading b).
Definition setIsTyping b : Prog unit := modify (assignIsTyping b).

(** Storing a value of the server where the page keeps a list. *)
Definition store_list (set : (list JSValue -> list JSValue) -> Prog unit)
  (v : JSValue) : Prog unit :=
  match elements v with
  | Some l => set (fun _ => l)
  | None => fun w => Unmodelled w
  end.

(** [console.error] writes to the console only and is left out. *)
Definition console_error : Prog unit := ret tt.

(** [loadConversations]: the request, and what the function does once the
    request has settled. *)
Definition loadConversations_resume (o : Outcome) : Prog unit :=
  try_catch
    (let* response := (fun w => match o with
                                | NetworkError => Raise FetchFailed w
                                | Answered r => Done r w
                                end) in
     let* data := json response in
     let* success := member data "success" in
     if truthy success then store_list setConversations (prop data "conversations")
     else ret tt)
    (fun _ => console_error).

Definition loadConversations : Prog unit :=
  let* headers := getAuthHeaders in
  detach (mkRequest AiAssistant GET Conversations headers None) KLoadConversations.

Definition loadMessages_resume (o : Outcome) : Prog unit :=
  try_catch
    (let* response := (fun w => match o with
                                | NetworkError => Raise FetchFailed w
                                | Answered r => Done r w
                                end) in
     let* data := json response in
     let* success := member data "success" in
     if truthy success then store_list setMessages (prop data "messages")
     else ret tt)
    (fun _ => console_error).

Definition loadMessages (conversationId : JSValue) : Prog unit :=
  let* headers := getAuthHeaders in
  detach (mkRequest AiAssistant GET (ConversationMessages conversationId) headers None)
         KLoadMessages.

Definition resume (c : Cont) : Outcome -> Prog unit :=
  match c with
  | KLoadConversations => loadConversations_resume
  | KLoadMessages => loadMessages_resume
  end.

(** The handlers below are closures of one render: [snap] is the state that
    render saw, which is what a handler reads when it names a state
    variable. *)

Definition createNewConversation (snap : UI) : Prog JSValue :=
  try_catch
    (let* headers := getAuthHeaders in
     let* response :=
       fetch (mkRequest AiAssistant POST Conversations headers
                (Some (VObj [("title", VStr "New Conversation")]))) in
     let* data := json response in
     let* success := member data "success" in
     if truthy success then
       let conversation := prop data "conversation" in
       setConversations (fun _ => conversation :: conversations snap) >>
       setActiveConversation conversation >>
       setMessages (fun _ => []) >>
       ret conversation
     else ret VUndefined)
    (fun _ => console_error >> ret VNull).

Definition userMessage (content created_at : string) : JSValue :=
  VObj [("role", VStr "user"); ("content", VStr content);
        ("created_at", VStr created_at)].

Definition sendMessage (snap : UI) : Prog unit :=
  if negb (truthy (VStr (trim (inputText snap)))) || isLoading snap then ret tt
  else
    let messageContent := inputText snap in
    let* conversationToUse :=
      if negb (truthy (activeConversation snap)) then createNewConversation snap
      else ret (activeConversation snap) in
    if negb (truthy conversationToUse) then console_error
    else
      let* now := Date_toISOString in
      let userMessage := userMessage messageContent now in
      setMessages (fun prev => prev ++ [userMessage]) >>
      setInputText "" >>
      setIsLoading true >>
      setIsTyping true >>
      try_finally
        (try_catch
           (let* headers := getAuthHeaders in
            let* response :=
              fetch (mkRequest AiAssistant POST
                       (ConversationMessages (prop conversationToUse "_id")) headers
                       (Some (VObj [("content", VStr messageContent);
                                    ("stream", VBool false)]))) in
            let* data := json response in
            setIsTyping false >>
            let* success := member data "success" in
            if truthy success && truthy (prop data "message") then
              setMessages (fun prev => prev ++ [prop data "message"]) >>
              loadConversations
            else console_error)
           (fun _ => console_error >> setIsTyping false))
        (assignIsLoading false).

Definition generateImage (snap : UI) : Prog unit :=
  if negb (truthy (VStr (trim (inputText snap)))) || isLoading snap then ret tt
  else
    let prompt := inputText snap in
    let* conversationToUse :=
      if negb (truthy (activeConversation snap)) then createNewConversation snap
      else ret (activeConversation snap) in
    if negb (truthy conversationToUse) then console_error
    else
      let* now := Date_toISOString in
      let userMessage := userMessage ("Generate image: " +:+ prompt) now in
      setMessages (fun prev => prev ++ [userMessage]) >>
      setInputText "" >>
      setIsLoading true >>
      setIsTyping true >>
      try_finally
        (try_catch
           (let* headers := getAuthHeaders in
            let* response :=
              fetch (mkRequest AiAssistant POST
                       (GenerateImage (prop conversationToUse "_id")) headers
                       (Some (VObj [("prompt", VStr prompt)]))) in
            let* data := json response in
            setIsTyping false >>
            let* success := member data "success" in
            if truthy success then
              setMessages (fun prev => prev ++ [prop data "message"]) >>
              loadConversations
            else ret tt)
           (fun _ => console_error >> setIsTyping false))
        (assignIsLoading false).

(** [deleteConversation(conversationId, e)]; [e.stopPropagation()] keeps the
    click from also selecting the row and is left out.  The response of the
    [fetch] is awaited and not looked at.  Identifiers are strings; the
    entries of the list are objects (on a [null] entry the page would have
    failed to render before any click). *)
Definition deleteConversation (snap : UI) (conversationId : string) : Prog unit :=
  try_catch
    (let* headers := getAuthHeaders in
     let* response :=
       fetch (mkRequest AiAssistant DELETE (Conversation (VStr conversationId))
                headers None) in
     setConversations
       (fun prev =>
          List.filter (fun c => negb (strict_eq_string (prop c "_id") conversationId))
                      prev) >>
     if strict_eq_string (prop (activeConversation snap) "_id") conversationId then
       setActiveConversation VNull >>
       setMessages (fun _ => [])
     else ret tt)
    (fun _ => console_error).

(** The effect on [activeConversation?._id]. *)
Definition activeConversationEffect (snap : UI) : Prog unit :=
  if truthy (activeConversation snap) then
    setMessages (fun _ => []) >>
    loadMessages (prop (activeConversation snap) "_id")
  else setMessages (fun _ => []).

(* ------------------------------------------------------------------ *)
(** *** The page between events *)

(** What stands between two events: the world, and the value of
    [activeConversation?._id] at the last run of the effect. *)
Record View := mkView {
  world : World;
  dep : JSValue
}.

(** The render after a change of state: the effect runs when its dependency
    is not the value of the last run. *)
Definition commit (v : View) : View :=
  let w := world v in
  let d := prop (activeConversation (ui w)) "_id" in
  if same_value d (dep v) then v
  else mkView (world_of (activeConversationEffect (ui w) w)) d.

(** The first render: both effects run. *)
Definition mount (w : World) : View :=
  let w1 := world_of (loadConversations w) in
  let w2 := world_of (activeConversationEffect (ui w1) w1) in
  mkView w2 (prop (activeConversation (ui w2)) "_id").

Inductive Event :=
| Click (conv : JSValue)          (* onClick={() => setActiveConversation(conv)} *)
| Settle (i : nat) (o : Outcome). (* the i-th request in flight settles *)

Definition settle (i : nat) (o : Outcome) (w : World) : option World :=
  match detached w !! i with
  | Some (rq, c) =>
      match resume c o (mkWorld (ui w) (token w) (tab_session_key w) (requests w)
                          (delete i (detached w)) (env w) (ticks w)) with
      | Done _ w' => Some w'
      | _ => None
      end
  | None => None
  end.

Definition step (v : View) (e : Event) : option View :=
  match e with
  | Click conv => Some (commit (mkView (assignActiveConversation conv (world v)) (dep v)))
  | Settle i o =>
      match settle i o (world v) with
      | Some w' => Some (commit (mkView w' (dep v)))
      | None => None
      end
  end.

Fixpoint steps (v : View) (es : list Event) : option View :=
  match es with
  | [] => Some v
  | e :: rest =>
      match step v e with
      | Some v' => steps v' rest
      | None => None
      end
  end.

(** A server answering a request for the messages of a conversation with
    the list [l]. *)
Definition serves (l : list JSValue) : Outcome :=
  Answered (mkResponse true
              (Some (VObj [("success", VBool true); ("messages", VArr l)]))).

End Page.

(* ------------------------------------------------------------------ *)
(** *** The page while a handler waits *)

Module Session.

(** [run] follows one handler on its own.  On the page a handler that
    reaches an [await] gives way: React renders the state the handler has
    left, the effect on [activeConversation?._id] runs if that value has
    changed, and the handler goes on, when its request settles, from the
    state it then finds.  A session is a view together with what is left
    of the handler that waits, if one does. *)
Record State := mkState {
  view : Page.View;
  waiting : option (Outcome -> World -> Res unit)
}.

Definition idle (v : Page.View) : State := mkState v None.

(** A handler, or the rest of one, has run up to its next [await] or to
    its end: the state it left is rendered. *)
Definition land (d : JSValue) (r : Res unit) : option State :=
  match r with
  | Done _ w => Some (mkState (Page.commit (Page.mkView w d)) None)
  | Raise _ w => Some (mkState (Page.commit (Page.mkView w d)) None)
  | Await _ w k => Some (mkState (Page.commit (Page.mkView w d)) (Some k))
  | Unmodelled _ => None
  end.

Inductive Event :=
| Input (text : string)               (* onChange={(e) => setInputText(e.target.value)} *)
| Invoke (handler : UI -> Prog unit)  (* a handler of the current render is called *)
| Answer (o : Outcome)                (* the request the handler awaits settles *)
| Settle (i : nat) (o : Outcome).     (* the i-th request made without [await] settles *)

(** One handler at a time: none is called while another waits. *)
Definition step (s : State) (e : Event) : option State :=
  let v := view s in
  match e with
  | Input text =>
      Some (mkState
              (Page.commit
                 (Page.mkView (Page.assignInputText text (Page.world v)) (Page.dep v)))
              (waiting s))
  | Invoke handler =>
      match waiting s with
      | None => land (Page.dep v) (handler (ui (Page.world v)) (Page.world v))
      | Some _ => None
      end
  | Answer o =>
      match waiting s with
      | Some k => land (Page.dep v) (k o (Page.world v))
      | None => None
      end
  | Settle i o =>
      match Page.settle i o (Page.world v) with
      | Some w' => Some (mkState (Page.commit (Page.mkView w' (Page.dep v))) (waiting s))
      | None => None
      end
  end.

Fixpoint steps (s : State) (es : list Event) : option State :=
  match es with
  | [] => Some s
  | e :: rest =>
      match step s e with
      | Some s' => steps s' rest
      | None => None
      end
  end.

End Session.

(* ------------------------------------------------------------------ *)
(** *** The labels of the page *)

Module Display.

(** [formatTimestamp(timestamp)].  [date] is the time value of
    [new Date(timestamp)], a whole number of milliseconds, or [None] for an
    invalid date, whose difference with anything is [NaN] and fails every
    comparison; [now] is the time value of [new Date()]; the last line of
    the function is the locale's business and stays a parameter. *)
Definition formatTimestamp (toLocaleDateString : option Z -> string)
  (now : Z) (date : option Z) : string :=
  match date with
  | None => toLocaleDateString date
  | Some d =>
      let diff := (now - d)%Z in
      if (diff <? 60000)%Z then "Just now"
      else if (diff <? 3600000)%Z then pretty (diff / 60000)%Z +:+ "m ago"
      else if (diff <? 86400000)%Z then pretty (diff / 3600000)%Z +:+ "h ago"
      else toLocaleDateString date
  end.

End Display.

(* ================================================================== *)
(** ** Vocabulary of the statements *)
(* ================================================================== *)

Definition result {A} (r : Res A) : option A :=
  match r with
  | Done a _ => Some a
  | _ => None
  end.

(** The key a call of [getTabSessionKey] makes up when it finds none. *)
Definition fresh_key (w : World) : string :=
  "tab_" +:+ mathRandom36 (env w) (ticks w) +:+ "_" +:+ dateNow36 (env w) (S (ticks w)).

Definition session_key (w : World) : string :=
  if truthy_item (tab_session_key w) then default "" (tab_session_key w)
  else fresh_key w.

(** The world a call of [getTabSessionKey] leaves. *)
Definition keyed (w : World) : World :=
  if truthy_item (tab_session_key w) then w
  else mkWorld (ui w) (token w) (Some (fresh_key w)) (requests w) (detached w)
               (env w) (S (S (ticks w))).

(** The keys answered by [n] calls in a row. *)
Fixpoint successive_keys (n : nat) (w : World) : list string :=
  match n with
  | O => []
  | S n' =>
      match getTabSessionKey w with
      | Done key w' => key :: successive_keys n' w'
      | _ => []
      end
  end.

(** The digits of [toString(36)]. *)
Definition base36_digit (c : ascii) : bool :=
  let n := nat_of_ascii c in
  (Nat.leb 48 n && Nat.leb n 57) || (Nat.leb 97 n && Nat.leb n 122).

Fixpoint base36 (s : string) : bool :=
  match s with
  | EmptyString => true
  | String c rest => base36_digit c && base36 rest
  end.

(** The value of a header in what a header builder returns. *)
Definition header (r : Res (gmap string string)) (name : string) : option string :=
  match r with
  | Done h _ => h !! name
  | _ => None
  end.

(** Sample data for the instances below. *)
Definition sample_env (random36 : string) : Env :=
  mkEnv (fun _ => random36) (fun _ => "mgz7k2p1") (fun _ => "2025-01-01T00:00:00.000Z").

Definition sample_world (u : UI) (tok key : option string) (random36 : string) : World :=
  mkWorld u tok key [] [] (sample_env random36) 0.

Definition conv (id title : string) : JSValue :=
  VObj [("_id", VStr id); ("title", VStr title)].

Definition msg (role content : string) : JSValue :=
  VObj [("role", VStr role); ("content", VStr content)].

(** An operation that makes one network call and never a second: it is
    suspended on a request it has just issued, and whatever the outcome and
    the world at resumption, it then returns or throws without touching the
    world. *)
Definition single_shot {A} (r : Res A) (w : World) : Prop :=
  exists rq w1 k,
    r = Await rq w1 k /\ requests w1 = requests w ++ [rq] /\
    forall o w', match k o w' with
                 | Done _ w'' | Raise _ w'' => w'' = w'
                 | _ => False
                 end.

(** The shape the operations of the hosted service share, the verb, route,
    body and fallback text apart; and the shape of those of the local one. *)
Definition hosted_exchange (m : Method) (r : Route) (b : option JSValue)
  (fallback : string) : Prog JSValue :=
  let* headers := Foundry.getAuthHeaders in
  let* res := fetch (mkRequest FoundryAgent m r headers b) in
  let* data := json res in
  if negb (ok res) then Foundry.throw_error data fallback else ret data.

Definition local_exchange (m : Method) (r : Route) (b : option JSValue)
  : Prog JSValue :=
  let* headers := Local.getHeaders in
  let* res := fetch (mkRequest LocalAgent m r headers b) in
  json res.

(** What a hosted operation does with the answer to its one request. *)
Definition foundry_settle (fallback : string) (o : Outcome) (w : World) : Res JSValue :=
  match o with
  | NetworkError => Raise FetchFailed w
  | Answered res =>
      match parsed res with
      | None => Raise SyntaxError w
      | Some data =>
          if ok res then Done data w
          else if nullish data then Raise TypeError w
          else Raise (Error (js_or (prop data "detail")
                               (js_or (prop data "error") (VStr fallback)))) w
      end
  end.

(** What a local operation does with it. *)
Definition local_settle (o : Outcome) (w : World) : Res JSValue :=
  match o with
  | NetworkError => Raise FetchFailed w
  | Answered res =>
      match parsed res with
      | None => Raise SyntaxError w
      | Some data => Done data w
      end
  end.

(** The conversation [createNewConversation] hands to its caller when the
    caller can go on with it: the body could be read, its [success] is
    truthy and so is its [conversation]. *)
Definition created (o : Outcome) : option JSValue :=
  match o with
  | Answered res =>
      match parsed res with
      | Some data =>
          if truthy (prop data "success") && truthy (prop data "conversation")
          then Some (prop data "conversation") else None
      | None => None
      end
  | NetworkError => None
  end.

(** The reply [sendMessage] appends: the [message] of a body that could be
    read and whose [success] and [message] are truthy. *)
Definition replied (o : Outcome) : option JSValue :=
  match o with
  | Answered res =>
      match parsed res with
      | Some data =>
          if truthy (prop data "success") && truthy (prop data "message")
          then Some (prop data "message") else None
      | None => None
      end
  | NetworkError => None
  end.

(** What the page's [getAuthHeaders] returns. *)
Definition page_headers (w : World) : gmap string string :=
  <[ "Content-Type" := "application/json" ]>
    (<[ "X-Tab-Session-Key" := session_key w ]>
       (<[ "Authorization" := bearer (token w) ]> ∅)).

(** The world [loadConversations] leaves to its caller: the request for the
    list is out and waits for its answer. *)
Definition conversations_request (w : World) : Request :=
  mkRequest AiAssistant GET Conversations (page_headers w) None.

Definition conversations_requested (w : World) : World :=
  mkWorld (ui (keyed w)) (token (keyed w)) (tab_session_key (keyed w))
          (requests (keyed w) ++ [conversations_request w])
          (detached (keyed w) ++ [(conversations_request w, KLoadConversations)])
          (env (keyed w)) (ticks (keyed w)).

(** What [sendMessage] does when the request for the reply has settled. *)
Definition send_settle (o : Outcome) (w : World) : Res unit :=
  match replied o with
  | Some reply =>
      Done tt (Page.assignIsLoading false
                 (conversations_requested
                    (Page.assignMessages (fun prev => prev ++ [reply])
                       (Page.assignIsTyping false w))))
  | None => Done tt (Page.assignIsLoading false (Page.assignIsTyping false w))
  end.

(** The request [sendMessage] makes for a reply, and the world it leaves
    when it is suspended on it: the user's message is shown, the input is
    cleared, and both flags are up. *)
Definition send_request (content : string) (conversation : JSValue) (w : World)
  : Request :=
  mkRequest AiAssistant POST (ConversationMessages (prop conversation "_id"))
            (page_headers w)
            (Some (VObj [("content", VStr content); ("stream", VBool false)])).

Definition optimistic (content : string) (w : World) : World :=
  Page.assignIsTyping true
    (Page.assignIsLoading true
       (Page.assignInputText ""
          (Page.assignMessages
             (fun prev => prev ++ [Page.userMessage content (dateISO (env w) (ticks w))])
             (tick w)))).

(** The request [createNewConversation] makes, and what the function does to
    the world when an answer comes with a truthy [success]. *)
Definition create_request (w : World) : Request :=
  mkRequest AiAssistant POST Conversations (page_headers w)
            (Some (VObj [("title", VStr "New Conversation")])).

Definition adopt (snap : UI) (conversation : JSValue) (w : World) : World :=
  Page.assignMessages (fun _ => [])
    (Page.assignActiveConversation conversation
       (Page.assignConversations (fun _ => conversation :: conversations snap) w)).

(** [c._id === conversationId] *)
Definition id_is (conversationId : string) (c : JSValue) : bool :=
  strict_eq_string (prop c "_id") conversationId.

(** The request [deleteConversation] makes, and what the handler does to
    the world once [fetch] has resolved. *)
Definition delete_request (conversationId : string) (w : World) : Request :=
  mkRequest AiAssistant DELETE (Conversation (VStr conversationId))
            (page_headers w) None.

Definition forget (snap : UI) (conversationId : string) (w : World) : World :=
  let w1 :=
    Page.assignConversations
      (fun prev => List.filter (fun c => negb (id_is conversationId c)) prev) w in
  if id_is conversationId (activeConversation snap)
  then Page.assignMessages (fun _ => []) (Page.assignActiveConversation VNull w1)
  else w1.

(** The world [loadMessages] leaves to the effect that called it: the
    request for the messages of the conversation is out. *)
Definition messages_request (conversationId : JSValue) (w : World) : Request :=
  mkRequest AiAssistant GET (ConversationMessages conversationId) (page_headers w) None.

Definition messages_requested (conversationId : JSValue) (w : World) : World :=
  mkWorld (ui (keyed w)) (token (keyed w)) (tab_session_key (keyed w))
          (requests (keyed w) ++ [messages_request conversationId w])
          (detached (keyed w) ++ [(messages_request conversationId w, KLoadMessages)])
          (env (keyed w)) (ticks (keyed w)).

(** The world after a click on a conversation whose [_id] is not the one
    of the last run of the effect: the conversation is the active one, the
    displayed list is empty and its messages are asked for. *)
Definition selecting (c : JSValue) (w : World) : World :=
  messages_requested (prop c "_id")
    (Page.assignMessages (fun _ => []) (Page.assignActiveConversation c w)).

(** What an answer to a request for messages brings to the page: the
    [messages] of a body that could be read and whose [success] is truthy. *)
Definition loaded (o : Outcome) : option JSValue :=
  match o with
  | Answered res =>
      match parsed res with
      | Some data => if truthy (prop data "success") then Some (prop data "messages")
                     else None
      | None => None
      end
  | NetworkError => None
  end.

(** The cells of a view that the statements read. *)
Definition shown (v : Page.View) : list JSValue := messages (ui (Page.world v)).
Definition active (v : Page.View) : JSValue := activeConversation (ui (Page.world v)).
Definition in_flight (v : Page.View) : list (Request * Cont) := detached (Page.world v).

(** A page on which nothing was selected yet, freshly mounted. *)
Definition sample_page : Page.View :=
  Page.mount (sample_world initialUI (Some "jwt") None "k3j9x0q1w2e4").

(** A page with a conversation on display and its two messages loaded. *)
Definition reading_page : Page.View :=
  Page.mkView
    (sample_world
       (mkUI [conv "c1" "Sprint"; conv "c2" "Retro"] (conv "c1" "Sprint")
             [msg "user" "Hi"; msg "assistant" "Hello"] "" false false)
       (Some "jwt") (Some "tab_k3j9x0q1w2e4_mgz7k2p1") "k3j9x0q1w2e4")
    (VStr "c1").

(** The request a function is suspended on, if it is suspended. *)
Definition awaited {A} (r : Res A) : option Request :=
  match r with
  | Await rq _ _ => Some rq
  | _ => None
  end.

(** The entries of a message list with a given role. *)
Definition with_role (r : string) (l : list JSValue) : list JSValue :=
  List.filter (fun m => strict_eq_string (prop m "role") r) l.

Definition is_send_request (rq : Request) : bool :=
  match method rq, route rq with
  | POST, ConversationMessages _ => true
  | _, _ => false
  end.


(* ------------------------------------------------------------------ *)
(** *** Vocabulary for the rest of the page *)

(** The body of an answer that could be read and whose [success] is
    truthy. *)
Definition accepted (o : Outcome) : option JSValue :=
  match o with
  | Answered res =>
      match parsed res with
      | Some data => if truthy (prop data "success") then Some data else None
      | None => None
      end
  | NetworkError => None
  end.

(** What [createNewConversation] does with the answer to its request. *)
Definition create_settle (snap : UI) (o : Outcome) (w : World) : Res JSValue :=
  match o with
  | Answered res =>
      match parsed res with
      | Some data =>
          if nullish data then Done VNull w
          else if truthy (prop data "success")
               then Done (prop data "conversation")
                         (adopt snap (prop data "conversation") w)
               else Done VUndefined w
      | None => Done VNull w
      end
  | NetworkError => Done VNull w
  end.

(** The request [generateImage] makes, and what it does with the answer. *)
Definition image_request (prompt : string) (conversation : JSValue) (w : World)
  : Request :=
  mkRequest AiAssistant POST (GenerateImage (prop conversation "_id"))
            (page_headers w) (Some (VObj [("prompt", VStr prompt)])).

Definition image_settle (o : Outcome) (w : World) : Res unit :=
  match accepted o with
  | Some data =>
      Done tt (Page.assignIsLoading false
                 (conversations_requested
                    (Page.assignMessages (fun prev => prev ++ [prop data "message"])
                       (Page.assignIsTyping false w))))
  | None => Done tt (Page.assignIsLoading false (Page.assignIsTyping false w))
  end.

Definition is_image_request (rq : Request) : bool :=
  match method rq, route rq with
  | POST, GenerateImage _ => true
  | _, _ => false
  end.

(** The text [generateImage] shows for a prompt. *)
Definition caption (prompt : string) : string := "Generate image: " +:+ prompt.

(** The three header builders. *)
Definition builders : list (Prog (gmap string string)) :=
  [Foundry.getAuthHeaders; Local.getHeaders; Page.getAuthHeaders].

(** The value of a header of the request a function is suspended on. *)
Definition sent_header {A} (r : Res A) (name : string) : option string :=
  match r with
  | Await rq _ _ => headers rq !! name
  | _ => None
  end.

(** A page in the middle of a send: the request for the reply is out. *)
Definition waiting_world : World :=
  world_of (run (Page.sendMessage
                   (mkUI [] (conv "c1" "Sprint") [] "Hello" false false)
                   (sample_world (mkUI [] (conv "c1" "Sprint") [] "Hello" false false)
                      (Some "jwt") None "k3j9x0q1w2e4"))
              []).

(* ------------------------------------------------------------------ *)
(** *** Vocabulary for the page while a handler waits *)

(** A page with a conversation on display, one message loaded, and a
    message typed. *)
Definition writing_page : Page.View :=
  Page.mkView
    (sample_world
       (mkUI [conv "c1" "Sprint"] (conv "c1" "Sprint") [msg "user" "Hi"] "Plan"
             false false)
       (Some "jwt") (Some "tab_k3j9x0q1w2e4_mgz7k2p1") "k3j9x0q1w2e4")
    (VStr "c1").

(** A text made of white space of every length of encoding: SPACE, TAB,
    NO-BREAK SPACE (C2 A0), EM SPACE (E2 80 83), LINE SEPARATOR (E2 80 A8),
    IDEOGRAPHIC SPACE (E3 80 80) and U+FEFF (EF BB BF). *)
Definition blank_text : string :=
  string_of_list_ascii
    (List.map ascii_of_nat
       [32; 9; 194; 160; 226; 128; 131; 226; 128; 168; 227; 128; 128; 239; 187; 191]).

(** The freshly mounted page with a first message typed. *)
Definition typed_page : Page.View :=
  Page.mkView (Page.assignInputText "Hello" (Page.world sample_page))
              (Page.dep sample_page).

(** The answer that brings a new conversation. *)
Definition brings (c : JSValue) : Outcome :=
  Answered (mkResponse true
              (Some (VObj [("success", VBool true); ("conversation", c)]))).

(** The answer that brings a reply. *)
Definition replies (m : JSValue) : Outcome :=
  Answered (mkResponse true
              (Some (VObj [("success", VBool true); ("message", m)]))).


(* ================================================================== *)
(** ** The session key *)
(* ================================================================== *)

Section SessionKey.

Lemma getTabSessionKey_spec (w : World) :
  getTabSessionKey w = Done (session_key w) (keyed w).
Proof.
  unfold getTabSessionKey, session_key, keyed, bind, sessionStorage_getKey.
  simpl. destruct (truthy_item (tab_session_key w)); reflexivity.
Qed.

Lemma fresh_key_truthy (w : World) : truthy_item (Some (fresh_key w)) = true.
Proof. reflexivity. Qed.

Lemma keyed_truthy (w : World) : truthy_item (tab_session_key (keyed w)) = true.
Proof.
  unfold keyed. destruct (truthy_item (tab_session_key w)) eqn:E; [exact E|].
  apply fresh_key_truthy.
Qed.

Lemma keyed_key (w : World) : tab_session_key (keyed w) = Some (session_key w).
Proof.
  unfold keyed, session_key.
  destruct (tab_session_key w) as [k|] eqn:E; simpl; [|reflexivity].
  destruct (negb (String.eqb k "")); simpl; [exact E | reflexivity].
Qed.

Lemma session_key_stored (w : World) (k : string) :
  tab_session_key w = Some k -> truthy_item (Some k) = true -> session_key w = k.
Proof. intros E T. unfold session_key. rewrite E, T. reflexivity. Qed.

Lemma keyed_ui (w : World) : ui (keyed w) = ui w.
Proof. unfold keyed. destruct (truthy_item _); reflexivity. Qed.

Lemma keyed_requests (w : World) : requests (keyed w) = requests w.
Proof. unfold keyed. destruct (truthy_item _); reflexivity. Qed.

Lemma keyed_detached (w : World) : detached (keyed w) = detached w.
Proof. unfold keyed. destruct (truthy_item _); reflexivity. Qed.

Lemma keyed_token (w : World) : token (keyed w) = token w.
Proof. unfold keyed. destruct (truthy_item _); reflexivity. Qed.

Lemma session_key_keyed (w : World) : session_key (keyed w) = session_key w.
Proof.
  apply session_key_stored; [apply keyed_key|].
  rewrite <- keyed_key. apply keyed_truthy.
Qed.

Lemma successive_keys_keyed (n : nat) :
  forall w, successive_keys n (keyed w) = repeat (session_key w) n.
Proof.
  induction n as [|n IH]; intros w; simpl; [reflexivity|].
  rewrite getTabSessionKey_spec, session_key_keyed. f_equal.
  rewrite IH. now rewrite session_key_keyed.
Qed.

(** A string of base-36 digits holds no underscore, so the underscore of
    the key is where its random part ends. *)
Lemma base36_split (r1 r2 t1 t2 : string) :
  base36 r1 = true -> base36 r2 = true ->
  r1 +:+ "_" +:+ t1 = r2 +:+ "_" +:+ t2 -> r1 = r2.
Proof.
  revert r2. induction r1 as [|c r1 IH]; intros [|d r2] B1 B2 E; simpl in *.
  - reflexivity.
  - injection E as Ec _. subst d. discriminate B2.
  - injection E as Ec _. subst c. discriminate B1.
  - injection E as Ec Er. subst d. f_equal.
    apply andb_prop in B1 as [_ B1]. apply andb_prop in B2 as [_ B2]. eauto.
Qed.

End SessionKey.

(** C9: from any state of the tab's storage, the calls of the session-key
    getter that follow the first all answer what the first answered,
    whatever the random source and the clock say in the meantime; and two
    first calls on empty tab storage whose random parts (strings of base-36
    digits) differ answer different keys. *)
Theorem C9_session_key_idempotent_and_fresh :
  (forall (n : nat) (w : World),
      successive_keys (S n) w = repeat (session_key w) (S n)) /\
  (forall (w1 w2 : World),
      tab_session_key w1 = None -> tab_session_key w2 = None ->
      base36 (mathRandom36 (env w1) (ticks w1)) = true ->
      base36 (mathRandom36 (env w2) (ticks w2)) = true ->
      mathRandom36 (env w1) (ticks w1) <> mathRandom36 (env w2) (ticks w2) ->
      result (getTabSessionKey w1) <> result (getTabSessionKey w2)).
Proof.
  split.
  - intros n w. simpl. rewrite getTabSessionKey_spec. f_equal.
    apply successive_keys_keyed.
  - intros w1 w2 E1 E2 B1 B2 Hne Heq.
    rewrite !getTabSessionKey_spec in Heq. simpl in Heq.
    unfold session_key in Heq. rewrite E1, E2 in Heq. simpl in Heq.
    unfold fresh_key in Heq. injection Heq as Heq. simpl in Heq.
    apply Hne. eapply base36_split; eauto.
Qed.

Lemma C9_witness :
  successive_keys 3 (sample_world initialUI None None "k3j9x0q1w2e4") =
    repeat (session_key (sample_world initialUI None None "k3j9x0q1w2e4")) 3 /\
  result (getTabSessionKey (sample_world initialUI None None "k3j9x0q1w2e4")) <>
    result (getTabSessionKey (sample_world initialUI None None "0z8y7x6w5v4u")).
Proof.
  split.
  - apply (proj1 C9_session_key_idempotent_and_fresh).
  - apply (proj2 C9_session_key_idempotent_and_fresh);
      [reflexivity | reflexivity | reflexivity | reflexivity | discriminate].
Defined.

(* ================================================================== *)
(** ** The header builders *)
(* ================================================================== *)

(** C4, as the code has it: the three header builders always set the tab
    session key and the JSON content type; the builder of the hosted service
    sets [Authorization] exactly when the stored token is a non-empty
    string, and the builders of the local service and of the page always
    set it, to [Bearer] followed by the stored token or by [null]. *)
Theorem C4_header_builders (w : World) :
  (header (Foundry.getAuthHeaders w) "X-Tab-Session-Key" = Some (session_key w) /\
   header (Foundry.getAuthHeaders w) "Content-Type" = Some "application/json" /\
   header (Foundry.getAuthHeaders w) "Authorization" =
     if truthy_item (token w) then Some (bearer (token w)) else None) /\
  (header (Local.getHeaders w) "X-Tab-Session-Key" = Some (session_key w) /\
   header (Local.getHeaders w) "Content-Type" = Some "application/json" /\
   header (Local.getHeaders w) "Authorization" = Some (bearer (token w))) /\
  (header (Page.getAuthHeaders w) "X-Tab-Session-Key" = Some (session_key w) /\
   header (Page.getAuthHeaders w) "Content-Type" = Some "application/json" /\
   header (Page.getAuthHeaders w) "Authorization" = Some (bearer (token w))).
Proof.
  unfold Foundry.getAuthHeaders, Local.getHeaders, Page.getAuthHeaders,
    Foundry.getToken, localStorage_getToken, bind, ret.
  simpl. rewrite getTabSessionKey_spec. simpl.
  repeat split; try (destruct (truthy_item (token w))); by simplify_map_eq.
Qed.

(** C4 fails as stated: with no token stored, the builders of the page and
    of the local service send [Authorization: Bearer null]. *)
Lemma C4_counterexample :
  token (sample_world initialUI None None "k3j9x0q1w2e4") = None /\
  header (Page.getAuthHeaders (sample_world initialUI None None "k3j9x0q1w2e4"))
         "Authorization" = Some "Bearer null" /\
  header (Local.getHeaders (sample_world initialUI None None "k3j9x0q1w2e4"))
         "Authorization" = Some "Bearer null".
Proof. repeat split; vm_compute; reflexivity. Qed.

(* ================================================================== *)
(** ** The guard of the two send handlers *)
(* ================================================================== *)

Section Trim.

Lemma trimStart_whitespace_upto (n : nat) (s : string) :
  String.length s <= n -> whitespace_only (trimStart s) = whitespace_only s.
Proof.
  revert s. induction n as [|n IH]; intros s Hn.
  - destruct s; [reflexivity | simpl in Hn; lia].
  - destruct s as [|c1 r1]; [reflexivity|].
    simpl in Hn. simpl trimStart. simpl (whitespace_only (String c1 r1)).
    destruct (isWhiteSpace c1) eqn:E1; [apply IH; lia|].
    destruct r1 as [|c2 r2]; [simpl; now rewrite E1|].
    simpl in Hn.
    destruct (isWhiteSpace2 c1 c2) eqn:E2; [apply IH; lia|].
    destruct r2 as [|c3 r3]; [simpl; now rewrite E1, E2|].
    simpl in Hn.
    destruct (isWhiteSpace3 c1 c2 c3) eqn:E3; [apply IH; lia|].
    simpl. now rewrite E1, E2, E3.
Qed.

Lemma trimStart_whitespace (s : string) :
  whitespace_only (trimStart s) = whitespace_only s.
Proof. now apply (trimStart_whitespace_upto (String.length s)). Qed.

Lemma trimEnd_empty (s : string) :
  trimEnd s = EmptyString <-> whitespace_only s = true.
Proof.
  destruct s as [|c rest]; [simpl; tauto|].
  unfold trimEnd; fold trimEnd.
  destruct (whitespace_only (String c rest)); split; intros H;
    try discriminate; reflexivity.
Qed.

Lemma trim_empty (s : string) : trim s = EmptyString <-> whitespace_only s = true.
Proof. unfold trim. rewrite trimEnd_empty, trimStart_whitespace. tauto. Qed.

Lemma guard_blank (s : string) :
  negb (truthy (VStr (trim s))) = whitespace_only s.
Proof.
  simpl. rewrite negb_involutive.
  destruct (whitespace_only s) eqn:W.
  - apply trim_empty in W. now rewrite W.
  - destruct (String.eqb_spec (trim s) "") as [E|E]; [|reflexivity].
    apply trim_empty in E. congruence.
Qed.

(** Every character [trim] strips is white space here, one to three
    bytes long; ZERO WIDTH SPACE (E2 80 8B) and a lone A0 are not. *)
Example white_space_characters :
  List.forallb
    (fun l => whitespace_only (string_of_list_ascii (List.map ascii_of_nat l)))
    [[9]; [10]; [11]; [12]; [13]; [32]; [194; 160]; [225; 154; 128];
     [226; 128; 128]; [226; 128; 129]; [226; 128; 130]; [226; 128; 131];
     [226; 128; 132]; [226; 128; 133]; [226; 128; 134]; [226; 128; 135];
     [226; 128; 136]; [226; 128; 137]; [226; 128; 138]; [226; 128; 168];
     [226; 128; 169]; [226; 128; 175]; [226; 129; 159]; [227; 128; 128];
     [239; 187; 191]] = true /\
  List.existsb
    (fun l => whitespace_only (string_of_list_ascii (List.map ascii_of_nat l)))
    [[226; 128; 139]; [160]; [194]; [226; 128]] = false.
Proof. split; reflexivity. Qed.

End Trim.

Lemma guard_returns (snap : UI) (w : World) :
  whitespace_only (inputText snap) = true \/ isLoading snap = true ->
  Page.sendMessage snap w = Done tt w /\ Page.generateImage snap w = Done tt w.
Proof.
  intros H. unfold Page.sendMessage, Page.generateImage.
  rewrite guard_blank.
  assert (G : whitespace_only (inputText snap) || isLoading snap = true).
  { destruct H as [-> | ->]; [reflexivity | apply orb_true_r]. }
  rewrite G. split; reflexivity.
Qed.

(** C10: when the input text is empty or only white space (any mixture of
    the characters [trim] strips: TAB, LF, VT, FF, CR, SPACE, NO-BREAK
    SPACE, U+1680, U+2000 to U+200A, U+2028, U+2029, U+202F, U+205F, U+3000
    and U+FEFF), or the loading flag is set, [sendMessage] and
    [generateImage] return at once and leave the whole world as it was:
    messages, conversations, input text, active conversation, both flags,
    and the log of requests. *)
Theorem C10_blocked_send_changes_nothing (snap : UI) (w : World) :
  whitespace_only (inputText snap) = true \/ isLoading snap = true ->
  Page.sendMessage snap w = Done tt w /\ Page.generateImage snap w = Done tt w /\
  requests (world_of (Page.sendMessage snap w)) = requests w /\
  requests (world_of (Page.generateImage snap w)) = requests w /\
  ui (world_of (Page.sendMessage snap w)) = ui w /\
  ui (world_of (Page.generateImage snap w)) = ui w.
Proof.
  intros H. destruct (guard_returns snap w H) as [-> ->].
  repeat split; reflexivity.
Qed.

Lemma C10_witness :
  Page.sendMessage (mkUI [] VNull [] blank_text false false)
    (sample_world (mkUI [] VNull [] blank_text false false) None None "k3j9x0q1w2e4") =
    Done tt (sample_world (mkUI [] VNull [] blank_text false false) None None
               "k3j9x0q1w2e4") /\
  Page.generateImage (mkUI [] VNull [] blank_text false false)
    (sample_world (mkUI [] VNull [] blank_text false false) None None "k3j9x0q1w2e4") =
    Done tt (sample_world (mkUI [] VNull [] blank_text false false) None None
               "k3j9x0q1w2e4").
Proof.
  destruct (C10_blocked_send_changes_nothing
              (mkUI [] VNull [] blank_text false false)
              (sample_world (mkUI [] VNull [] blank_text false false) None None
                 "k3j9x0q1w2e4")
              (or_introl eq_refl)) as (Hs & Hg & _).
  split; [exact Hs | exact Hg].
Defined.

(* ================================================================== *)
(** ** The two service modules *)
(* ================================================================== *)

Section Services.

Lemma foundry_headers (w : World) :
  exists h, Foundry.getAuthHeaders w = Done h (keyed w).
Proof.
  unfold Foundry.getAuthHeaders, Foundry.getToken, localStorage_getToken, bind, ret.
  simpl. rewrite getTabSessionKey_spec. simpl. eauto.
Qed.

Lemma local_headers (w : World) :
  exists h, Local.getHeaders w = Done h (keyed w).
Proof.
  unfold Local.getHeaders, localStorage_getToken, bind, ret.
  simpl. rewrite getTabSessionKey_spec. simpl. eauto.
Qed.

Lemma hosted_exchange_spec m r b fallback (w : World) :
  exists rq k,
    hosted_exchange m r b fallback w = Await rq (log_request rq (keyed w)) k /\
    service rq = FoundryAgent /\ method rq = m /\ route rq = r /\ body rq = b /\
    forall o w', k o w' = foundry_settle fallback o w'.
Proof.
  destruct (foundry_headers w) as [h Hh].
  unfold hosted_exchange, bind. rewrite Hh. simpl.
  eexists _, _. split; [reflexivity|]. repeat split.
  intros [|[okf [data|]]] w'; simpl; try reflexivity.
  destruct okf; simpl; [reflexivity|].
  unfold Foundry.throw_error, bind, member. destruct (nullish data); reflexivity.
Qed.

Lemma local_exchange_spec m r b (w : World) :
  exists rq k,
    local_exchange m r b w = Await rq (log_request rq (keyed w)) k /\
    service rq = LocalAgent /\ method rq = m /\ route rq = r /\ body rq = b /\
    forall o w', k o w' = local_settle o w'.
Proof.
  destruct (local_headers w) as [h Hh].
  unfold local_exchange, bind. rewrite Hh. simpl.
  eexists _, _. split; [reflexivity|]. repeat split.
  intros [|[okf [data|]]] w'; reflexivity.
Qed.

Lemma foundry_invoke_call (op : Foundry.Op) :
  exists m r b, Foundry.invoke op = hosted_exchange m r b (Foundry.fallback op).
Proof. destruct op; simpl; eexists _, _, _; reflexivity. Qed.

Lemma local_invoke_call (op : Local.Op) :
  exists m r b, Local.invoke op = local_exchange m r b.
Proof. destruct op; simpl; eexists _, _, _; reflexivity. Qed.

End Services.

Lemma foundry_single_shot (op : Foundry.Op) (w : World) :
  single_shot (Foundry.invoke op w) w.
Proof.
  destruct (foundry_invoke_call op) as (m & r & b & ->).
  destruct (hosted_exchange_spec m r b (Foundry.fallback op) w)
    as (rq & k & -> & _ & _ & _ & _ & Hk).
  exists rq, (log_request rq (keyed w)), k. split; [reflexivity|]. split.
  - simpl. now rewrite keyed_requests.
  - intros o w'. rewrite Hk. unfold foundry_settle.
    destruct o as [|[okf [data|]]]; simpl; try reflexivity.
    destruct okf, (nullish data); reflexivity.
Qed.

Lemma local_single_shot (op : Local.Op) (w : World) :
  single_shot (Local.invoke op w) w.
Proof.
  destruct (local_invoke_call op) as (m & r & b & ->).
  destruct (local_exchange_spec m r b w) as (rq & k & -> & _ & _ & _ & _ & Hk).
  exists rq, (log_request rq (keyed w)), k. split; [reflexivity|]. split.
  - simpl. now rewrite keyed_requests.
  - intros o w'. rewrite Hk. unfold local_settle.
    destruct o as [|[okf [data|]]]; reflexivity.
Qed.

(** C3, as the code has it: on an answer with a status outside 2xx whose
    body is JSON (and not the bare [null]), every operation of the hosted
    service throws an [Error] whose message is the body's [detail] when
    that is truthy, else its [error] when that is truthy, else the
    operation's own fixed text, while every operation of the local service
    resolves with the body and throws nothing; the hosted service throws on
    every answer outside 2xx; each operation of either service issues one
    request and never a second; and the local service resolves with the
    body of every answer whose body is JSON, whatever its status. *)
Theorem C3_services_on_failure_status
  (fop : Foundry.Op) (lop : Local.Op) (w : World) (res : Response) (data : JSValue) :
  ok res = false -> parsed res = Some data -> nullish data = false ->
  (exists w', run (Foundry.invoke fop w) [Answered res] =
                Raise (Error (js_or (prop data "detail")
                                (js_or (prop data "error")
                                   (VStr (Foundry.fallback fop))))) w') /\
  (exists w', run (Local.invoke lop w) [Answered res] = Done data w') /\
  (forall res', ok res' = false ->
                rejected (run (Foundry.invoke fop w) [Answered res']) = true) /\
  single_shot (Foundry.invoke fop w) w /\
  single_shot (Local.invoke lop w) w /\
  (forall res' data',
      parsed res' = Some data' ->
      exists w', run (Local.invoke lop w) [Answered res'] = Done data' w').
Proof.
  intros Hok Hbody Hnull.
  split; [|split; [|split; [|split; [|split]]]].
  - destruct (foundry_invoke_call fop) as (m & r & b & ->).
    destruct (hosted_exchange_spec m r b (Foundry.fallback fop) w)
      as (rq & k & -> & _ & _ & _ & _ & Hk).
    simpl. rewrite Hk. unfold foundry_settle. rewrite Hbody, Hok, Hnull. eauto.
  - destruct (local_invoke_call lop) as (m & r & b & ->).
    destruct (local_exchange_spec m r b w) as (rq & k & -> & _ & _ & _ & _ & Hk).
    simpl. rewrite Hk. unfold local_settle. rewrite Hbody. eauto.
  - intros res' Hok'.
    destruct (foundry_invoke_call fop) as (m & r & b & ->).
    destruct (hosted_exchange_spec m r b (Foundry.fallback fop) w)
      as (rq & k & -> & _ & _ & _ & _ & Hk).
    simpl. rewrite Hk. unfold foundry_settle. rewrite Hok'.
    destruct (parsed res') as [d|]; [destruct (nullish d)|]; reflexivity.
  - apply foundry_single_shot.
  - apply local_single_shot.
  - intros res' data' Hbody'.
    destruct (local_invoke_call lop) as (m & r & b & ->).
    destruct (local_exchange_spec m r b w) as (rq & k & -> & _ & _ & _ & _ & Hk).
    simpl. rewrite Hk. unfold local_settle. rewrite Hbody'. eauto.
Qed.

Lemma C3_witness :
  (exists w', run (Foundry.invoke Foundry.ListConversations
                     (sample_world initialUI (Some "jwt") None "k3j9x0q1w2e4"))
                [Answered (mkResponse false
                             (Some (VObj [("detail", VStr "Not authenticated")])))] =
              Raise (Error (VStr "Not authenticated")) w') /\
  (exists w', run (Local.invoke Local.ListConversations
                     (sample_world initialUI (Some "jwt") None "k3j9x0q1w2e4"))
                [Answered (mkResponse false
                             (Some (VObj [("detail", VStr "Not authenticated")])))] =
              Done (VObj [("detail", VStr "Not authenticated")]) w').
Proof.
  pose proof (C3_services_on_failure_status
                Foundry.ListConversations Local.ListConversations
                (sample_world initialUI (Some "jwt") None "k3j9x0q1w2e4")
                (mkResponse false (Some (VObj [("detail", VStr "Not authenticated")])))
                (VObj [("detail", VStr "Not authenticated")])
                eq_refl eq_refl eq_refl) as (Hf & Hl & _).
  split; [exact Hf | exact Hl].
Defined.

(** C3 fails as stated: the local service does not look at the status, so
    on a 401 with a [detail] in its body [createConversation] resolves with
    that body where the hosted service throws. *)
Lemma C3_counterexample :
  rejected (run (Local.createConversation (VStr "Chat")
                   (sample_world initialUI (Some "jwt") None "k3j9x0q1w2e4"))
              [Answered (mkResponse false
                           (Some (VObj [("detail", VStr "Not authenticated")])))])
    = false /\
  rejected (run (Foundry.createConversation (VStr "Chat")
                   (sample_world initialUI (Some "jwt") None "k3j9x0q1w2e4"))
              [Answered (mkResponse false
                           (Some (VObj [("detail", VStr "Not authenticated")])))])
    = true.
Proof. split; vm_compute; reflexivity. Qed.

(* ================================================================== *)
(** ** The page: sending *)
(* ================================================================== *)

Lemma page_getAuthHeaders_spec (w : World) :
  Page.getAuthHeaders w = Done (page_headers w) (keyed w).
Proof.
  unfold Page.getAuthHeaders, localStorage_getToken, bind, ret.
  simpl. rewrite getTabSessionKey_spec. reflexivity.
Qed.

Lemma loadConversations_spec (w : World) :
  Page.loadConversations w = Done tt (conversations_requested w).
Proof.
  unfold Page.loadConversations, bind. rewrite page_getAuthHeaders_spec.
  reflexivity.
Qed.

Arguments Page.getAuthHeaders : simpl never.
Arguments Page.loadConversations : simpl never.
Arguments page_headers : simpl never.
Arguments keyed : simpl never.
Arguments session_key : simpl never.

Ltac open_prog :=
  repeat (progress
            (unfold bind, try_finally, try_catch, ret, raise, modify, fetch,
               Page.setMessages, Page.setInputText, Page.setIsLoading,
               Page.setIsTyping, Page.setConversations, Page.setActiveConversation,
               Page.console_error, Date_toISOString;
             simpl;
             rewrite ?page_getAuthHeaders_spec, ?loadConversations_spec)).

(** The cells of a world after each of the assignments. *)
Section Projections.

Variables (rq : Request) (w : World).

Lemma ui_log_request : ui (log_request rq w) = ui w.
Proof. reflexivity. Qed.
Lemma requests_log_request : requests (log_request rq w) = requests w ++ [rq].
Proof. reflexivity. Qed.
Lemma detached_log_request : detached (log_request rq w) = detached w.
Proof. reflexivity. Qed.
Lemma ui_tick : ui (tick w) = ui w.
Proof. reflexivity. Qed.
Lemma requests_tick : requests (tick w) = requests w.
Proof. reflexivity. Qed.
Lemma detached_tick : detached (tick w) = detached w.
Proof. reflexivity. Qed.
Lemma ui_conversations_requested : ui (conversations_requested w) = ui w.
Proof. unfold conversations_requested. cbn [ui]. apply keyed_ui. Qed.
Lemma requests_conversations_requested :
  requests (conversations_requested w) = requests w ++ [conversations_request w].
Proof. unfold conversations_requested. cbn [requests]. now rewrite keyed_requests. Qed.
Lemma detached_conversations_requested :
  detached (conversations_requested w) =
  detached w ++ [(conversations_request w, KLoadConversations)].
Proof. unfold conversations_requested. cbn [detached]. now rewrite keyed_detached. Qed.

Lemma ui_assignConversations f :
  ui (Page.assignConversations f w) =
  mkUI (f (conversations (ui w))) (activeConversation (ui w)) (messages (ui w))
       (inputText (ui w)) (isLoading (ui w)) (isTyping (ui w)).
Proof. reflexivity. Qed.
Lemma ui_assignActiveConversation c :
  ui (Page.assignActiveConversation c w) =
  mkUI (conversations (ui w)) c (messages (ui w))
       (inputText (ui w)) (isLoading (ui w)) (isTyping (ui w)).
Proof. reflexivity. Qed.
Lemma ui_assignMessages f :
  ui (Page.assignMessages f w) =
  mkUI (conversations (ui w)) (activeConversation (ui w)) (f (messages (ui w)))
       (inputText (ui w)) (isLoading (ui w)) (isTyping (ui w)).
Proof. reflexivity. Qed.
Lemma ui_assignInputText s :
  ui (Page.assignInputText s w) =
  mkUI (conversations (ui w)) (activeConversation (ui w)) (messages (ui w))
       s (isLoading (ui w)) (isTyping (ui w)).
Proof. reflexivity. Qed.
Lemma ui_assignIsLoading b :
  ui (Page.assignIsLoading b w) =
  mkUI (conversations (ui w)) (activeConversation (ui w)) (messages (ui w))
       (inputText (ui w)) b (isTyping (ui w)).
Proof. reflexivity. Qed.
Lemma ui_assignIsTyping b :
  ui (Page.assignIsTyping b w) =
  mkUI (conversations (ui w)) (activeConversation (ui w)) (messages (ui w))
       (inputText (ui w)) (isLoading (ui w)) b.
Proof. reflexivity. Qed.

Lemma requests_assignConversations f : requests (Page.assignConversations f w) = requests w.
Proof. reflexivity. Qed.
Lemma requests_assignActiveConversation c :
  requests (Page.assignActiveConversation c w) = requests w.
Proof. reflexivity. Qed.
Lemma requests_assignMessages f : requests (Page.assignMessages f w) = requests w.
Proof. reflexivity. Qed.
Lemma requests_assignInputText s : requests (Page.assignInputText s w) = requests w.
Proof. reflexivity. Qed.
Lemma requests_assignIsLoading b : requests (Page.assignIsLoading b w) = requests w.
Proof. reflexivity. Qed.
Lemma requests_assignIsTyping b : requests (Page.assignIsTyping b w) = requests w.
Proof. reflexivity. Qed.

Lemma detached_assignConversations f : detached (Page.assignConversations f w) = detached w.
Proof. reflexivity. Qed.
Lemma detached_assignActiveConversation c :
  detached (Page.assignActiveConversation c w) = detached w.
Proof. reflexivity. Qed.
Lemma detached_assignMessages f : detached (Page.assignMessages f w) = detached w.
Proof. reflexivity. Qed.
Lemma detached_assignInputText s : detached (Page.assignInputText s w) = detached w.
Proof. reflexivity. Qed.
Lemma detached_assignIsLoading b : detached (Page.assignIsLoading b w) = detached w.
Proof. reflexivity. Qed.
Lemma detached_assignIsTyping b : detached (Page.assignIsTyping b w) = detached w.
Proof. reflexivity. Qed.

Lemma ui_optimistic content :
  ui (optimistic content w) =
  mkUI (conversations (ui w)) (activeConversation (ui w))
       (messages (ui w) ++ [Page.userMessage content (dateISO (env w) (ticks w))])
       "" true true.
Proof. reflexivity. Qed.
Lemma requests_optimistic content : requests (optimistic content w) = requests w.
Proof. reflexivity. Qed.
Lemma detached_optimistic content : detached (optimistic content w) = detached w.
Proof. reflexivity. Qed.

Lemma ui_adopt snap c :
  ui (adopt snap c w) =
  mkUI (c :: conversations snap) c [] (inputText (ui w)) (isLoading (ui w))
       (isTyping (ui w)).
Proof. reflexivity. Qed.
Lemma requests_adopt snap c : requests (adopt snap c w) = requests w.
Proof. reflexivity. Qed.
Lemma detached_adopt snap c : detached (adopt snap c w) = detached w.
Proof. reflexivity. Qed.

End Projections.


Create Rewrite HintDb world.
#[local] Hint Rewrite
  ui_log_request requests_log_request detached_log_request
  ui_tick requests_tick detached_tick
  ui_conversations_requested requests_conversations_requested
  detached_conversations_requested
  ui_assignConversations ui_assignActiveConversation ui_assignMessages
  ui_assignInputText ui_assignIsLoading ui_assignIsTyping
  requests_assignConversations requests_assignActiveConversation
  requests_assignMessages requests_assignInputText requests_assignIsLoading
  requests_assignIsTyping
  detached_assignConversations detached_assignActiveConversation
  detached_assignMessages detached_assignInputText detached_assignIsLoading
  detached_assignIsTyping
  ui_optimistic requests_optimistic detached_optimistic
  ui_adopt requests_adopt detached_adopt
  keyed_ui keyed_requests keyed_detached : world.

(** Reading a cell of the state, or the log of requests, through the
    assignments made to a world: one rewriting step per assignment. *)
Ltac read_world :=
  repeat progress
    (autorewrite with world;
     cbn [conversations activeConversation messages inputText isLoading isTyping]).

(** [sendMessage] with a conversation on display: it is suspended on the
    request for the reply, with the user's message already shown. *)
Lemma sendMessage_active (snap : UI) (w : World) :
  whitespace_only (inputText snap) = false -> isLoading snap = false ->
  truthy (activeConversation snap) = true ->
  exists k,
    Page.sendMessage snap w =
      Await (send_request (inputText snap) (activeConversation snap)
               (optimistic (inputText snap) w))
            (log_request (send_request (inputText snap) (activeConversation snap)
                            (optimistic (inputText snap) w))
               (keyed (optimistic (inputText snap) w)))
            k /\
    forall o w', k o w' = send_settle o w'.
Proof.
  intros Hin Hl Ha. unfold Page.sendMessage.
  rewrite guard_blank, Hin, Hl, Ha. simpl. open_prog. rewrite Ha. open_prog.
  eexists. split; [reflexivity|].
  intros o w'. unfold send_settle, replied.
  destruct o as [|[okf [data|]]]; simpl; try reflexivity.
  unfold member. destruct (nullish data) eqn:N; open_prog.
  - destruct data; try discriminate; reflexivity.
  - destruct (truthy (prop data "success") && truthy (prop data "message"));
      open_prog; reflexivity.
Qed.

(** [sendMessage] with no conversation on display: it is suspended on the
    request that creates one, and goes on to the request for the reply only
    with the conversation that answer brings. *)
Lemma sendMessage_inactive (snap : UI) (w : World) :
  whitespace_only (inputText snap) = false -> isLoading snap = false ->
  truthy (activeConversation snap) = false ->
  exists k0,
    Page.sendMessage snap w =
      Await (create_request w) (log_request (create_request w) (keyed w)) k0 /\
    forall o w',
      match created o with
      | Some c =>
          exists k1,
            k0 o w' =
              Await (send_request (inputText snap) c
                       (optimistic (inputText snap) (adopt snap c w')))
                    (log_request
                       (send_request (inputText snap) c
                          (optimistic (inputText snap) (adopt snap c w')))
                       (keyed (optimistic (inputText snap) (adopt snap c w'))))
                    k1 /\
            forall o2 w2, k1 o2 w2 = send_settle o2 w2
      | None =>
          k0 o w' = Done tt w' \/
          exists c, truthy c = false /\ k0 o w' = Done tt (adopt snap c w')
      end.
Proof.
  intros Hin Hl Ha. unfold Page.sendMessage.
  rewrite guard_blank, Hin, Hl, Ha. simpl.
  unfold Page.createNewConversation. open_prog.
  eexists. split; [reflexivity|].
  intros o w'. unfold created.
  destruct o as [|[okf [data|]]]; simpl; try (left; reflexivity).
  unfold member. destruct (nullish data) eqn:N; open_prog.
  - destruct data; try discriminate; left; reflexivity.
  - destruct (truthy (prop data "success")); open_prog; [|left; reflexivity].
    destruct (truthy (prop data "conversation")) eqn:C; open_prog.
    + eexists. split; [reflexivity|].
      intros o2 w2. unfold send_settle, replied.
      destruct o2 as [|[okf2 [data2|]]]; simpl; try reflexivity.
      unfold member. destruct (nullish data2) eqn:N2; open_prog.
      * destruct data2; try discriminate; reflexivity.
      * destruct (truthy (prop data2 "success") && truthy (prop data2 "message"));
          open_prog; reflexivity.
    + right. exists (prop data "conversation"). split; [exact C | reflexivity].
Qed.

Lemma run_done {A} (a : A) (w : World) (l : list Outcome) : run (Done a w) l = Done a w.
Proof. destruct l; reflexivity. Qed.

Lemma send_settle_done (o : Outcome) (w : World) :
  exists w', send_settle o w = Done tt w'.
Proof. unfold send_settle. destruct (replied o); eauto. Qed.

Lemma with_role_snoc (r : string) (l : list JSValue) (m : JSValue) :
  with_role r (l ++ [m]) =
  if strict_eq_string (prop m "role") r then with_role r l ++ [m] else with_role r l.
Proof.
  unfold with_role. rewrite List.filter_app. simpl.
  destruct (strict_eq_string (prop m "role") r); [reflexivity | apply app_nil_r].
Qed.

(** C1: with a conversation on display, a send that is answered with a
    truthy [success] and a [message] leaves the displayed list as it was,
    followed by the user's entry (role [user], the text that was sent) and
    then by the [message] of the answer, and by nothing else of the answer;
    when that message has the role [assistant], the list has gained one
    entry of each role. *)
Theorem C1_successful_send_appends_user_then_reply
  (snap : UI) (w : World) (o : Outcome) (reply : JSValue) :
  whitespace_only (inputText snap) = false -> isLoading snap = false ->
  truthy (activeConversation snap) = true ->
  replied o = Some reply ->
  exists w',
    run (Page.sendMessage snap w) [o] = Done tt w' /\
    messages (ui w') =
      messages (ui w) ++
      [Page.userMessage (inputText snap) (dateISO (env w) (ticks w)); reply] /\
    prop (Page.userMessage (inputText snap) (dateISO (env w) (ticks w))) "role"
      = VStr "user" /\
    prop (Page.userMessage (inputText snap) (dateISO (env w) (ticks w))) "content"
      = VStr (inputText snap) /\
    (prop reply "role" = VStr "assistant" ->
     with_role "user" (messages (ui w')) =
       with_role "user" (messages (ui w)) ++
       [Page.userMessage (inputText snap) (dateISO (env w) (ticks w))] /\
     with_role "assistant" (messages (ui w')) =
       with_role "assistant" (messages (ui w)) ++ [reply]) /\
    isTyping (ui w') = false /\ isLoading (ui w') = false /\
    inputText (ui w') = "".
Proof.
  intros Hin Hl Ha Hr.
  destruct (sendMessage_active snap w Hin Hl Ha) as (k & -> & Hk).
  cbn [run]. rewrite Hk. unfold send_settle. rewrite Hr.
  eexists. split; [reflexivity|]. read_world.
  rewrite <- app_assoc. cbn [app].
  split; [reflexivity|]. split; [reflexivity|]. split; [reflexivity|].
  split; [|repeat split; reflexivity].
  intros Hrole.
  replace (messages (ui w) ++
           [Page.userMessage (inputText snap) (dateISO (env w) (ticks w)); reply])
    with ((messages (ui w) ++
           [Page.userMessage (inputText snap) (dateISO (env w) (ticks w))]) ++ [reply])
    by (now rewrite <- app_assoc).
  rewrite !with_role_snoc, Hrole. split; reflexivity.
Qed.

Lemma C1_witness :
  exists w',
    run (Page.sendMessage
           (mkUI [conv "c1" "Sprint"] (conv "c1" "Sprint") [msg "user" "Hi"; msg "assistant" "Hello"]
                 "Plan my week" false false)
           (sample_world
              (mkUI [conv "c1" "Sprint"] (conv "c1" "Sprint")
                    [msg "user" "Hi"; msg "assistant" "Hello"] "Plan my week" false false)
              (Some "jwt") None "k3j9x0q1w2e4"))
        [Answered (mkResponse true
                     (Some (VObj [("success", VBool true);
                                  ("message", msg "assistant" "Here is a plan");
                                  ("user_message", msg "user" "Plan my week")])))]
      = Done tt w' /\
    messages (ui w') =
      [msg "user" "Hi"; msg "assistant" "Hello";
       Page.userMessage "Plan my week" "2025-01-01T00:00:00.000Z";
       msg "assistant" "Here is a plan"].
Proof.
  destruct (C1_successful_send_appends_user_then_reply
              (mkUI [conv "c1" "Sprint"] (conv "c1" "Sprint")
                    [msg "user" "Hi"; msg "assistant" "Hello"] "Plan my week" false false)
              (sample_world
                 (mkUI [conv "c1" "Sprint"] (conv "c1" "Sprint")
                       [msg "user" "Hi"; msg "assistant" "Hello"] "Plan my week" false false)
                 (Some "jwt") None "k3j9x0q1w2e4")
              (Answered (mkResponse true
                     (Some (VObj [("success", VBool true);
                                  ("message", msg "assistant" "Here is a plan");
                                  ("user_message", msg "user" "Plan my week")]))))
              (msg "assistant" "Here is a plan")
              eq_refl eq_refl eq_refl eq_refl) as (w' & Hrun & Hm & _).
  exists w'. split; [exact Hrun | exact Hm].
Defined.

(** C7: a send that passes the guard with no conversation on display first
    issues one request to create a conversation and is suspended on it.
    When the answer brings a conversation, the handler puts it at the head
    of the cached list and makes it the active one, and only then issues the
    request for the reply, for that conversation: the log then holds the
    creation request followed by the message request, and nothing else new.
    When it brings none (transport failure, a body that cannot be read, no
    truthy [success], no conversation), the handler returns with the
    creation request as the only one issued. *)
Theorem C7_send_creates_conversation_first (snap : UI) (w : World) (o : Outcome) :
  whitespace_only (inputText snap) = false -> isLoading snap = false ->
  truthy (activeConversation snap) = false ->
  exists rq0 w0 k0,
    Page.sendMessage snap w = Await rq0 w0 k0 /\
    method rq0 = POST /\ route rq0 = Conversations /\
    body rq0 = Some (VObj [("title", VStr "New Conversation")]) /\
    requests w0 = requests w ++ [rq0] /\ ui w0 = ui w /\
    match created o with
    | Some c =>
        exists rq1 w1 k1,
          run (Page.sendMessage snap w) [o] = Await rq1 w1 k1 /\
          is_send_request rq1 = true /\
          route rq1 = ConversationMessages (prop c "_id") /\
          requests w1 = requests w ++ [rq0; rq1] /\
          conversations (ui w1) = c :: conversations snap /\
          activeConversation (ui w1) = c
    | None =>
        exists w1,
          run (Page.sendMessage snap w) [o] = Done tt w1 /\
          requests w1 = requests w ++ [rq0] /\
          detached w1 = detached w
    end.
Proof.
  intros Hin Hl Ha.
  destruct (sendMessage_inactive snap w Hin Hl Ha) as (k0 & -> & Hk0).
  eexists _, _, k0. split; [reflexivity|].
  split; [reflexivity|]. split; [reflexivity|]. split; [reflexivity|].
  split; [now read_world|]. split; [now read_world|].
  cbn [run].
  specialize (Hk0 o (log_request (create_request w) (keyed w))).
  destruct (created o) as [c|].
  - destruct Hk0 as (k1 & -> & _).
    eexists _, _, k1. split; [reflexivity|].
    split; [reflexivity|]. split; [reflexivity|].
    split; [|split]; read_world; [|reflexivity|reflexivity].
    now rewrite <- app_assoc.
  - destruct Hk0 as [-> | (c & _ & ->)]; eexists;
      (split; [reflexivity|]); read_world; split; reflexivity.
Qed.

Lemma C7_witness :
  exists rq0 rq1 w1 k1,
    run (Page.sendMessage (mkUI [] VNull [] "Hello" false false)
           (sample_world (mkUI [] VNull [] "Hello" false false) (Some "jwt") None
              "k3j9x0q1w2e4"))
        [Answered (mkResponse true
                     (Some (VObj [("success", VBool true);
                                  ("conversation", conv "c7" "New Conversation")])))]
      = Await rq1 w1 k1 /\
    route rq0 = Conversations /\
    route rq1 = ConversationMessages (VStr "c7") /\
    requests w1 = [rq0; rq1] /\
    conversations (ui w1) = [conv "c7" "New Conversation"] /\
    activeConversation (ui w1) = conv "c7" "New Conversation".
Proof.
  destruct (C7_send_creates_conversation_first
              (mkUI [] VNull [] "Hello" false false)
              (sample_world (mkUI [] VNull [] "Hello" false false) (Some "jwt") None
                 "k3j9x0q1w2e4")
              (Answered (mkResponse true
                     (Some (VObj [("success", VBool true);
                                  ("conversation", conv "c7" "New Conversation")]))))
              eq_refl eq_refl eq_refl)
    as (rq0 & w0 & k0 & _ & _ & Hr0 & _ & _ & _ & H).
  cbn [created parsed] in H.
  destruct H as (rq1 & w1 & k1 & Hrun & _ & Hr1 & Hlog & Hc & Ha).
  exists rq0, rq1, w1, k1.
  split; [exact Hrun|]. split; [exact Hr0|]. split; [exact Hr1|].
  split; [exact Hlog|]. split; [exact Hc | exact Ha].
Defined.

(* ================================================================== *)
(** ** The page: a send that fails *)
(* ================================================================== *)


(** Wherever [sendMessage] is suspended on a request for a reply, the
    user's message is the last one shown and both flags are up, and what is
    left of the handler is [send_settle]. *)
Lemma sendMessage_suspended
  (snap : UI) (w : World) (pre : list Outcome) (rq : Request) (w1 : World)
  (k : Outcome -> World -> Res unit) :
  run (Page.sendMessage snap w) pre = Await rq w1 k ->
  is_send_request rq = true ->
  (exists shown now,
      messages (ui w1) = shown ++ [Page.userMessage (inputText snap) now]) /\
  isTyping (ui w1) = true /\ isLoading (ui w1) = true /\
  forall o w', k o w' = send_settle o w'.
Proof.
  intros Hrun Hsend.
  destruct (whitespace_only (inputText snap)) eqn:Hin.
  { destruct (guard_returns snap w (or_introl Hin)) as [E _].
    rewrite E, run_done in Hrun. discriminate. }
  destruct (isLoading snap) eqn:Hl.
  { destruct (guard_returns snap w (or_intror Hl)) as [E _].
    rewrite E, run_done in Hrun. discriminate. }
  destruct (truthy (activeConversation snap)) eqn:Ha.
  - destruct (sendMessage_active snap w Hin Hl Ha) as (ka & E & Hk).
    rewrite E in Hrun. destruct pre as [|o1 rest]; cbn [run] in Hrun.
    + injection Hrun as <- <- <-. read_world. repeat split; eauto.
    + rewrite Hk in Hrun. destruct (send_settle_done o1
        (log_request
           (send_request (inputText snap) (activeConversation snap)
              (optimistic (inputText snap) w))
           (keyed (optimistic (inputText snap) w)))) as (w2 & E2).
      rewrite E2, run_done in Hrun. discriminate.
  - destruct (sendMessage_inactive snap w Hin Hl Ha) as (k0 & E & Hk0).
    rewrite E in Hrun. destruct pre as [|o1 rest]; cbn [run] in Hrun.
    + injection Hrun as <- <- <-. discriminate Hsend.
    + specialize (Hk0 o1 (log_request (create_request w) (keyed w))).
      destruct (created o1) as [c|].
      * destruct Hk0 as (k1 & E1 & Hk1). rewrite E1 in Hrun.
        destruct rest as [|o2 rest]; cbn [run] in Hrun.
        -- injection Hrun as <- <- <-. read_world. repeat split; eauto.
        -- rewrite Hk1 in Hrun.
           match type of Hrun with
           | run (send_settle ?o ?W) _ = _ =>
               destruct (send_settle_done o W) as (w2 & E2)
           end.
           rewrite E2, run_done in Hrun. discriminate.
      * destruct Hk0 as [E1 | (c & _ & E1)]; rewrite E1, run_done in Hrun;
          discriminate.
Qed.

(** A render that finds the [_id] of the last run of the effect changes
    nothing. *)
Lemma commit_rest (w : World) (d : JSValue) :
  same_value (prop (activeConversation (ui w)) "_id") d = true ->
  Page.commit (Page.mkView w d) = Page.mkView w d.
Proof.
  intros H. unfold Page.commit. cbn [Page.world Page.dep]. now rewrite H.
Qed.




(* ================================================================== *)
(** ** The page: deleting a conversation *)
(* ================================================================== *)

Lemma deleteConversation_spec (snap : UI) (conversationId : string) (w : World) :
  exists k,
    Page.deleteConversation snap conversationId w =
      Await (delete_request conversationId w)
            (log_request (delete_request conversationId w) (keyed w)) k /\
    forall o w',
      k o w' = match o with
               | NetworkError => Done tt w'
               | Answered _ => Done tt (forget snap conversationId w')
               end.
Proof.
  unfold Page.deleteConversation. open_prog.
  eexists. split; [reflexivity|].
  intros [|res] w'; cbn [catchRes bindRes]; [reflexivity|].
  unfold forget, id_is.
  destruct (strict_eq_string (prop (activeConversation snap) "_id") conversationId);
    reflexivity.
Qed.

Lemma filter_out_unique (conversationId : string) (l : list JSValue) (c : JSValue) :
  In c l -> id_is conversationId c = true ->
  NoDup (map (fun c => prop c "_id") l) ->
  exists before after,
    l = before ++ c :: after /\
    List.filter (fun c => negb (id_is conversationId c)) l = before ++ after.
Proof.
  induction l as [|x l IH]; intros Hin Hid Hnd; [destruct Hin|].
  cbn [map] in Hnd. apply NoDup_cons in Hnd as [Hx Hnd].
  assert (Hrest : forall y, In y l -> id_is conversationId y = true ->
                            id_is conversationId x = false).
  { intros y Hy Hy'. destruct (id_is conversationId x) eqn:Ex; [|reflexivity].
    exfalso. apply Hx. unfold id_is, strict_eq_string in *.
    destruct (prop x "_id") eqn:Px; try discriminate.
    destruct (prop y "_id") eqn:Py; try discriminate.
    apply String.eqb_eq in Ex, Hy'. subst.
    apply list_elem_of_In. rewrite <- Py. apply (in_map (fun c => prop c "_id")), Hy. }
  destruct Hin as [-> | Hin].
  - exists [], l. split; [reflexivity|]. cbn [List.filter app]. rewrite Hid.
    cbn [negb]. apply List.forallb_filter_id. apply forallb_forall.
    intros y Hy. destruct (id_is conversationId y) eqn:Ey; [|reflexivity].
    specialize (Hrest y Hy Ey). congruence.
  - destruct (IH Hin Hid) as (before & after & -> & Hf).
    { exact Hnd. }
    exists (x :: before), after. split; [reflexivity|].
    cbn [List.filter]. rewrite (Hrest c Hin Hid). cbn [negb app]. now rewrite Hf.
Qed.

Lemma ui_forget (snap : UI) (conversationId : string) (w : World) :
  ui (forget snap conversationId w) =
  if id_is conversationId (activeConversation snap)
  then mkUI (List.filter (fun c => negb (id_is conversationId c)) (conversations (ui w)))
            VNull [] (inputText (ui w)) (isLoading (ui w)) (isTyping (ui w))
  else mkUI (List.filter (fun c => negb (id_is conversationId c)) (conversations (ui w)))
            (activeConversation (ui w)) (messages (ui w))
            (inputText (ui w)) (isLoading (ui w)) (isTyping (ui w)).
Proof.
  unfold forget. destruct (id_is conversationId (activeConversation snap));
    read_world; reflexivity.
Qed.

(** C6: once the [fetch] of [deleteConversation] has resolved, the cached
    list keeps, in order, the entries whose [_id] is not the one deleted;
    if the active conversation has that [_id], the active selection becomes
    [null] and the displayed list empty, and otherwise both stay as they
    were; the input text and the two flags stay as they were in either
    case.  In a list without two entries of the same [_id], the entry
    deleted is the one entry that goes. *)
Theorem C6_delete_active_or_other
  (w : World) (conversationId : string) (res : Response) :
  exists w',
    run (Page.deleteConversation (ui w) conversationId w) [Answered res] = Done tt w' /\
    conversations (ui w') =
      List.filter (fun c => negb (id_is conversationId c)) (conversations (ui w)) /\
    (if id_is conversationId (activeConversation (ui w))
     then activeConversation (ui w') = VNull /\ messages (ui w') = []
     else activeConversation (ui w') = activeConversation (ui w) /\
          messages (ui w') = messages (ui w)) /\
    inputText (ui w') = inputText (ui w) /\
    isLoading (ui w') = isLoading (ui w) /\
    isTyping (ui w') = isTyping (ui w) /\
    (forall c,
        In c (conversations (ui w)) -> id_is conversationId c = true ->
        NoDup (map (fun c => prop c "_id") (conversations (ui w))) ->
        exists before after,
          conversations (ui w) = before ++ c :: after /\
          conversations (ui w') = before ++ after).
Proof.
  destruct (deleteConversation_spec (ui w) conversationId w) as (k & -> & Hk).
  cbn [run]. rewrite Hk. eexists. split; [reflexivity|].
  rewrite ui_forget.
  destruct (id_is conversationId (activeConversation (ui w))); read_world;
    (split; [reflexivity|]); (split; [split; reflexivity|]);
    (split; [reflexivity|]); (split; [reflexivity|]); (split; [reflexivity|]);
    intros c Hin Hid Hnd; apply filter_out_unique; assumption.
Qed.

Lemma C6_witness :
  exists w',
    run (Page.deleteConversation
           (mkUI [conv "c1" "Sprint"; conv "c2" "Retro"] (conv "c2" "Retro")
                 [msg "user" "Hi"] "" false false)
           "c1"
           (sample_world
              (mkUI [conv "c1" "Sprint"; conv "c2" "Retro"] (conv "c2" "Retro")
                    [msg "user" "Hi"] "" false false)
              (Some "jwt") None "k3j9x0q1w2e4"))
        [Answered (mkResponse true (Some (VObj [("success", VBool true)])))]
      = Done tt w' /\
    exists before after,
      [conv "c1" "Sprint"; conv "c2" "Retro"] = before ++ conv "c1" "Sprint" :: after /\
      conversations (ui w') = before ++ after.
Proof.
  destruct (C6_delete_active_or_other
              (sample_world
                 (mkUI [conv "c1" "Sprint"; conv "c2" "Retro"] (conv "c2" "Retro")
                       [msg "user" "Hi"] "" false false)
                 (Some "jwt") None "k3j9x0q1w2e4")
              "c1"
              (mkResponse true (Some (VObj [("success", VBool true)]))))
    as (w' & Hrun & _ & _ & _ & _ & _ & Hone).
  exists w'. split; [exact Hrun|].
  apply (Hone (conv "c1" "Sprint")).
  - left. reflexivity.
  - reflexivity.
  - cbn [map]. apply NoDup_cons_2; [|apply NoDup_singleton].
    intros H. apply list_elem_of_singleton in H. discriminate H.
Defined.

(** C5, at an input where the code departs from it: the backend refuses the
    delete with a 404, and the conversation leaves the cached list all the
    same, because the handler awaits the [fetch] and never looks at the
    response. *)
Theorem C5_delete_after_refusal :
  exists w',
    run (Page.deleteConversation
           (mkUI [conv "c1" "Sprint"; conv "c2" "Retro"] VNull [] "" false false)
           "c1"
           (sample_world
              (mkUI [conv "c1" "Sprint"; conv "c2" "Retro"] VNull [] "" false false)
              (Some "jwt") None "k3j9x0q1w2e4"))
        [Answered (mkResponse false
                     (Some (VObj [("success", VBool false);
                                  ("detail", VStr "Conversation not found")])))]
      = Done tt w' /\
    conversations (ui w') = [conv "c2" "Retro"].
Proof.
  destruct (deleteConversation_spec
              (mkUI [conv "c1" "Sprint"; conv "c2" "Retro"] VNull [] "" false false)
              "c1"
              (sample_world
                 (mkUI [conv "c1" "Sprint"; conv "c2" "Retro"] VNull [] "" false false)
                 (Some "jwt") None "k3j9x0q1w2e4")) as (k & -> & Hk).
  cbn [run]. rewrite Hk. eexists. split; [reflexivity|].
  rewrite ui_forget. reflexivity.
Qed.

(* ================================================================== *)
(** ** The page: selecting a conversation *)
(* ================================================================== *)

Section Selecting.

Lemma loadMessages_spec (conversationId : JSValue) (w : World) :
  Page.loadMessages conversationId w = Done tt (messages_requested conversationId w).
Proof.
  unfold Page.loadMessages, bind. rewrite page_getAuthHeaders_spec. reflexivity.
Qed.

Lemma ui_messages_requested id w : ui (messages_requested id w) = ui w.
Proof. unfold messages_requested. cbn [ui]. apply keyed_ui. Qed.

Lemma requests_messages_requested id w :
  requests (messages_requested id w) = requests w ++ [messages_request id w].
Proof. unfold messages_requested. cbn [requests]. now rewrite keyed_requests. Qed.

Lemma detached_messages_requested id w :
  detached (messages_requested id w) =
  detached w ++ [(messages_request id w, KLoadMessages)].
Proof. unfold messages_requested. cbn [detached]. now rewrite keyed_detached. Qed.

Lemma effect_on_conversation (c : JSValue) (w : World) :
  truthy c = true ->
  Page.activeConversationEffect (ui (Page.assignActiveConversation c w))
    (Page.assignActiveConversation c w) = Done tt (selecting c w).
Proof.
  intros Hc. unfold Page.activeConversationEffect.
  rewrite ui_assignActiveConversation. cbn [activeConversation]. rewrite Hc.
  unfold bind, Page.setMessages, modify. cbn [bindRes].
  apply loadMessages_spec.
Qed.

(** A click on a conversation with another [_id]. *)
Lemma click_other (v : Page.View) (c : JSValue) :
  truthy c = true ->
  same_value (prop c "_id") (Page.dep v) = false ->
  Page.step v (Page.Click c) =
    Some (Page.mkView (selecting c (Page.world v)) (prop c "_id")).
Proof.
  intros Hc Hd. unfold Page.step, Page.commit. cbn [Page.world Page.dep].
  rewrite (effect_on_conversation c _ Hc), ui_assignActiveConversation.
  cbn [activeConversation world_of]. rewrite Hd. reflexivity.
Qed.

(** A click on the conversation that has the [_id] of the last run. *)
Lemma click_same (v : Page.View) (c : JSValue) :
  same_value (prop c "_id") (Page.dep v) = true ->
  Page.step v (Page.Click c) =
    Some (Page.mkView (Page.assignActiveConversation c (Page.world v)) (Page.dep v)).
Proof.
  intros Hd. unfold Page.step, Page.commit. cbn [Page.world Page.dep].
  rewrite ui_assignActiveConversation. cbn [activeConversation].
  rewrite Hd. reflexivity.
Qed.

(** The answer to the request a selection has just made. *)
Lemma settle_last (w : World) (rq : Request) (c : Cont) (o : Outcome) (w1 : World) :
  detached w1 = detached w ++ [(rq, c)] ->
  Page.settle (List.length (detached w)) o w1 =
    match Page.resume c o
            (mkWorld (ui w1) (token w1) (tab_session_key w1) (requests w1)
                     (detached w) (env w1) (ticks w1)) with
    | Done _ w' => Some w'
    | _ => None
    end.
Proof.
  intros E. unfold Page.settle. rewrite E.
  rewrite (list_lookup_middle (detached w) [] (rq, c) _ eq_refl).
  rewrite (delete_middle (detached w) [] (rq, c)), app_nil_r. reflexivity.
Qed.

Lemma loadMessages_resume_spec (o : Outcome) (w : World) :
  Page.loadMessages_resume o w =
    match loaded o with
    | Some (VArr l) => Done tt (Page.assignMessages (fun _ => l) w)
    | Some _ => Unmodelled w
    | None => Done tt w
    end.
Proof.
  unfold Page.loadMessages_resume, loaded, try_catch, bind.
  destruct o as [|[okf [data|]]]; cbn [bindRes catchRes json parsed raise ret];
    try reflexivity.
  unfold member. destruct (nullish data) eqn:N.
  - destruct data; try discriminate; reflexivity.
  - cbn [bindRes ret]. destruct (truthy (prop data "success")); [|reflexivity].
    unfold Page.store_list. destruct (prop data "messages"); reflexivity.
Qed.

End Selecting.

#[local] Hint Rewrite
  ui_messages_requested requests_messages_requested detached_messages_requested
  : world.

Lemma selecting_cells (c : JSValue) (w : World) :
  ui (selecting c w) =
    mkUI (conversations (ui w)) c [] (inputText (ui w)) (isLoading (ui w))
         (isTyping (ui w)) /\
  requests (selecting c w) =
    requests w ++ [messages_request (prop c "_id")
                     (Page.assignMessages (fun _ => [])
                        (Page.assignActiveConversation c w))] /\
  detached (selecting c w) =
    detached w ++ [(messages_request (prop c "_id")
                      (Page.assignMessages (fun _ => [])
                         (Page.assignActiveConversation c w)), KLoadMessages)].
Proof. unfold selecting. read_world. repeat split; reflexivity. Qed.

(** C2, as the code has it: a click on a conversation whose [_id] is the
    one already on display clears nothing and loads nothing; a click on a
    conversation with another [_id] empties the displayed list at once,
    makes the conversation the active one and issues one request for its
    messages; when the answer to that request arrives with a truthy
    [success] and a list of messages, the displayed list becomes exactly
    that list, and when the request fails, or its answer cannot be read or
    has no truthy [success], the list is left empty. *)
Theorem C2_selection_clears_then_loads
  (v : Page.View) (c : JSValue) (o : Outcome) :
  Page.dep v = prop (active v) "_id" ->
  (same_value (prop c "_id") (prop (active v) "_id") = true ->
   exists v1,
     Page.step v (Page.Click c) = Some v1 /\
     shown v1 = shown v /\ active v1 = c /\
     in_flight v1 = in_flight v /\
     requests (Page.world v1) = requests (Page.world v)) /\
  (truthy c = true ->
   same_value (prop c "_id") (prop (active v) "_id") = false ->
   same_value (prop c "_id") (prop c "_id") = true ->
   exists v1 rq,
     Page.step v (Page.Click c) = Some v1 /\
     shown v1 = [] /\ active v1 = c /\
     in_flight v1 = in_flight v ++ [(rq, KLoadMessages)] /\
     requests (Page.world v1) = requests (Page.world v) ++ [rq] /\
     method rq = GET /\ route rq = ConversationMessages (prop c "_id") /\
     match loaded o with
     | Some (VArr l) =>
         exists v2,
           Page.step v1 (Page.Settle (List.length (in_flight v)) o) = Some v2 /\
           shown v2 = l /\ active v2 = c /\ in_flight v2 = in_flight v
     | Some _ => True
     | None =>
         exists v2,
           Page.step v1 (Page.Settle (List.length (in_flight v)) o) = Some v2 /\
           shown v2 = [] /\ active v2 = c /\ in_flight v2 = in_flight v
     end).
Proof.
  intros Hdep. unfold active, shown, in_flight in *. split.
  - intros Hsame. rewrite <- Hdep in Hsame.
    rewrite (click_same v c Hsame). eexists. split; [reflexivity|].
    cbn [Page.world]. read_world. repeat split; reflexivity.
  - intros Hc Hother Hprim. rewrite <- Hdep in Hother.
    rewrite (click_other v c Hc Hother).
    destruct (selecting_cells c (Page.world v)) as (Hui & Hrq & Hdet).
    eexists _, _. split; [reflexivity|]. cbn [Page.world].
    rewrite Hui, Hrq, Hdet. cbn [messages activeConversation].
    split; [reflexivity|]. split; [reflexivity|]. split; [reflexivity|].
    split; [reflexivity|]. split; [reflexivity|]. split; [reflexivity|].
    unfold Page.step. cbn [Page.world Page.dep].
    rewrite !(settle_last (Page.world v) _ KLoadMessages _ _ Hdet).
    cbn [Page.resume]. rewrite loadMessages_resume_spec.
    destruct (loaded o) as [[| | | | |l|]|]; try exact I;
      unfold Page.commit; cbn [Page.world Page.dep];
      rewrite ?ui_assignMessages; cbn [ui activeConversation]; rewrite Hui;
      cbn [activeConversation]; rewrite Hprim;
      eexists; (split; [reflexivity|]); cbn [Page.world];
      rewrite ?ui_assignMessages; cbn [ui messages activeConversation detached];
      rewrite ?Hui; repeat split; reflexivity.
Qed.

Lemma C2_witness :
  (exists v1,
      Page.step reading_page (Page.Click (conv "c1" "Sprint")) = Some v1 /\
      shown v1 = [msg "user" "Hi"; msg "assistant" "Hello"]) /\
  (exists v1 v2,
      Page.step sample_page (Page.Click (conv "c1" "Sprint")) = Some v1 /\
      shown v1 = [] /\
      Page.step v1 (Page.Settle 1 (Page.serves [msg "user" "Hi"; msg "assistant" "Hello"]))
        = Some v2 /\
      shown v2 = [msg "user" "Hi"; msg "assistant" "Hello"]).
Proof.
  split.
  - destruct (C2_selection_clears_then_loads reading_page (conv "c1" "Sprint")
                NetworkError eq_refl) as (Hsame & _).
    destruct (Hsame eq_refl) as (v1 & Hstep & Hshown & _).
    exists v1. split; [exact Hstep | exact Hshown].
  - destruct (C2_selection_clears_then_loads sample_page (conv "c1" "Sprint")
                (Page.serves [msg "user" "Hi"; msg "assistant" "Hello"]) eq_refl)
      as (_ & Hother).
    destruct (Hother eq_refl eq_refl eq_refl)
      as (v1 & rq & Hstep & Hshown & _ & _ & _ & _ & _ & (v2 & Hstep2 & Hshown2 & _)).
    exists v1, v2. split; [exact Hstep|]. split; [exact Hshown|].
    split; [exact Hstep2 | exact Hshown2].
Defined.

(** C2 fails as stated: with a conversation on display and its messages
    loaded, a click on that same conversation leaves the two messages on
    display and asks the server for nothing. *)
Lemma C2_counterexample :
  (fun v => (shown v, List.length (requests (Page.world v)))) <$>
    Page.steps sample_page
      [Page.Click (conv "c1" "Sprint");
       Page.Settle 1 (Page.serves [msg "user" "Hi"; msg "assistant" "Hello"])]
    = Some ([msg "user" "Hi"; msg "assistant" "Hello"], 2) /\
  (fun v => (shown v, List.length (requests (Page.world v)))) <$>
    Page.steps sample_page
      [Page.Click (conv "c1" "Sprint");
       Page.Settle 1 (Page.serves [msg "user" "Hi"; msg "assistant" "Hello"]);
       Page.Click (conv "c1" "Sprint")]
    = Some ([msg "user" "Hi"; msg "assistant" "Hello"], 2).
Proof. split; vm_compute; reflexivity. Qed.

(** Two selections in a row whose answers arrive in the other order: the
    second conversation is the active one, and the list on display is the
    first one's, which arrived last.  No statement above promises
    otherwise. *)
Example stale_answer_is_displayed :
  (fun v => (prop (active v) "_id", shown v)) <$>
    Page.steps sample_page
      [Page.Click (conv "c1" "Sprint");
       Page.Click (conv "c2" "Retro");
       Page.Settle 2 (Page.serves [msg "user" "about the retro"]);
       Page.Settle 1 (Page.serves [msg "user" "about the sprint"])]
    = Some (VStr "c2", [msg "user" "about the sprint"]).
Proof. vm_compute. reflexivity. Qed.

(* ================================================================== *)
(** ** Reading the world by rewriting *)
(* ================================================================== *)

(** The cells of the world a settled request is resumed on. *)
Lemma ui_landed (w : World) d :
  ui (mkWorld (ui w) (token w) (tab_session_key w) (requests w) d (env w) (ticks w))
  = ui w.
Proof. reflexivity. Qed.
Lemma requests_landed (w : World) d :
  requests (mkWorld (ui w) (token w) (tab_session_key w) (requests w) d (env w)
              (ticks w)) = requests w.
Proof. reflexivity. Qed.
Lemma detached_landed (w : World) d :
  detached (mkWorld (ui w) (token w) (tab_session_key w) (requests w) d (env w)
              (ticks w)) = d.
Proof. reflexivity. Qed.

#[local] Hint Rewrite ui_landed requests_landed detached_landed : world.

Section Cells.

Variables (cs : list JSValue) (a : JSValue) (ms : list JSValue) (t : string)
  (l y : bool).

Lemma conversations_mkUI : conversations (mkUI cs a ms t l y) = cs.
Proof. reflexivity. Qed.
Lemma activeConversation_mkUI : activeConversation (mkUI cs a ms t l y) = a.
Proof. reflexivity. Qed.
Lemma messages_mkUI : messages (mkUI cs a ms t l y) = ms.
Proof. reflexivity. Qed.
Lemma inputText_mkUI : inputText (mkUI cs a ms t l y) = t.
Proof. reflexivity. Qed.
Lemma isLoading_mkUI : isLoading (mkUI cs a ms t l y) = l.
Proof. reflexivity. Qed.
Lemma isTyping_mkUI : isTyping (mkUI cs a ms t l y) = y.
Proof. reflexivity. Qed.

End Cells.

#[local] Hint Rewrite
  conversations_mkUI activeConversation_mkUI messages_mkUI inputText_mkUI
  isLoading_mkUI isTyping_mkUI : world.

(** [read_world] by rewriting alone. *)
Ltac read_cells := autorewrite with world.

(* ================================================================== *)
(** ** The page: creating a conversation *)
(* ================================================================== *)

Lemma createNewConversation_spec (snap : UI) (w : World) :
  exists k,
    Page.createNewConversation snap w =
      Await (create_request w) (log_request (create_request w) (keyed w)) k /\
    forall o w', k o w' = create_settle snap o w'.
Proof.
  unfold Page.createNewConversation. open_prog.
  eexists. split; [reflexivity|].
  intros o w'. unfold create_settle.
  destruct o as [|[okf [data|]]]; simpl; try reflexivity.
  unfold member. destruct (nullish data) eqn:N; open_prog.
  - reflexivity.
  - destruct (truthy (prop data "success")); open_prog; reflexivity.
Qed.

(** X1: [createNewConversation] issues one POST for a conversation titled
    [New Conversation]; when the answer has a truthy [success], whatever the
    state is at that moment, the cached list becomes the [conversation] of
    the answer in front of the list of the render that made the handler
    (not of the list as it then is), that conversation becomes the active
    one, the displayed list is emptied, the input text and the two flags are
    left alone, and the conversation is returned. *)
Theorem X1_create_prepends_to_rendered_list
  (snap : UI) (w : World) (o : Outcome) (data : JSValue) :
  accepted o = Some data ->
  exists rq w0 k,
    Page.createNewConversation snap w = Await rq w0 k /\
    method rq = POST /\ route rq = Conversations /\
    body rq = Some (VObj [("title", VStr "New Conversation")]) /\
    requests w0 = requests w ++ [rq] /\ ui w0 = ui w /\
    forall w', exists w1,
      k o w' = Done (prop data "conversation") w1 /\
      conversations (ui w1) = prop data "conversation" :: conversations snap /\
      activeConversation (ui w1) = prop data "conversation" /\
      messages (ui w1) = [] /\
      inputText (ui w1) = inputText (ui w') /\
      isLoading (ui w1) = isLoading (ui w') /\
      isTyping (ui w1) = isTyping (ui w') /\
      requests w1 = requests w'.
Proof.
  intros Hacc.
  destruct (createNewConversation_spec snap w) as (k & -> & Hk).
  eexists _, _, k. split; [reflexivity|].
  split; [reflexivity|]. split; [reflexivity|]. split; [reflexivity|].
  split; [now read_world|]. split; [now read_world|].
  intros w'. rewrite Hk. unfold create_settle, accepted in *.
  destruct o as [|[okf [d|]]]; try discriminate Hacc. cbn [parsed] in *.
  destruct (truthy (prop d "success")) eqn:S; [|discriminate Hacc].
  injection Hacc as ->.
  assert (N : nullish data = false).
  { destruct data; try reflexivity; discriminate S. }
  rewrite N. eexists. split; [reflexivity|]. read_world.
  repeat split; reflexivity.
Qed.

Lemma X1_witness :
  exists rq w0 k w1,
    Page.createNewConversation
      (mkUI [conv "c1" "Sprint"] VNull [] "" false false)
      (sample_world (mkUI [conv "c1" "Sprint"] VNull [] "" false false)
         (Some "jwt") None "k3j9x0q1w2e4") = Await rq w0 k /\
    k (Answered (mkResponse true
                   (Some (VObj [("success", VBool true);
                                ("conversation", conv "c9" "New Conversation")]))))
      (sample_world (mkUI [conv "c8" "Other"; conv "c1" "Sprint"] VNull [] "" false false)
         (Some "jwt") None "k3j9x0q1w2e4")
      = Done (conv "c9" "New Conversation") w1 /\
    conversations (ui w1) = [conv "c9" "New Conversation"; conv "c1" "Sprint"].
Proof.
  destruct (X1_create_prepends_to_rendered_list
              (mkUI [conv "c1" "Sprint"] VNull [] "" false false)
              (sample_world (mkUI [conv "c1" "Sprint"] VNull [] "" false false)
                 (Some "jwt") None "k3j9x0q1w2e4")
              (Answered (mkResponse true
                   (Some (VObj [("success", VBool true);
                                ("conversation", conv "c9" "New Conversation")]))))
              (VObj [("success", VBool true);
                     ("conversation", conv "c9" "New Conversation")])
              eq_refl)
    as (rq & w0 & k & Hrun & _ & _ & _ & _ & _ & Hk).
  destruct (Hk (sample_world
                  (mkUI [conv "c8" "Other"; conv "c1" "Sprint"] VNull [] "" false false)
                  (Some "jwt") None "k3j9x0q1w2e4"))
    as (w1 & Hdone & Hlist & _).
  exists rq, w0, k, w1. split; [exact Hrun|]. split; [exact Hdone | exact Hlist].
Defined.

(** X2: when the answer to the creation request brings no truthy
    [success] (the transport failed, the body is not JSON, is [null], or
    says otherwise), [createNewConversation] returns a falsy value ([null]
    or [undefined]) and leaves the state it finds exactly as it is. *)
Theorem X2_create_failure_changes_nothing
  (snap : UI) (w : World) (o : Outcome) :
  accepted o = None ->
  exists rq w0 k,
    Page.createNewConversation snap w = Await rq w0 k /\
    forall w', exists v, k o w' = Done v w' /\ truthy v = false.
Proof.
  intros Hacc.
  destruct (createNewConversation_spec snap w) as (k & -> & Hk).
  eexists _, _, k. split; [reflexivity|].
  intros w'. rewrite Hk. unfold create_settle, accepted in *.
  destruct o as [|[okf [d|]]]; cbn [parsed] in *; eauto.
  destruct (nullish d) eqn:N; eauto.
  destruct (truthy (prop d "success")); [discriminate Hacc | eauto].
Qed.

Lemma X2_witness :
  exists rq w0 k v,
    Page.createNewConversation initialUI
      (sample_world initialUI (Some "jwt") None "k3j9x0q1w2e4") = Await rq w0 k /\
    k (Answered (mkResponse false (Some (VObj [("detail", VStr "Not authenticated")]))))
      (sample_world initialUI (Some "jwt") None "k3j9x0q1w2e4")
      = Done v (sample_world initialUI (Some "jwt") None "k3j9x0q1w2e4") /\
    truthy v = false.
Proof.
  destruct (X2_create_failure_changes_nothing initialUI
              (sample_world initialUI (Some "jwt") None "k3j9x0q1w2e4")
              (Answered (mkResponse false
                           (Some (VObj [("detail", VStr "Not authenticated")]))))
              eq_refl)
    as (rq & w0 & k & Hrun & Hk).
  destruct (Hk (sample_world initialUI (Some "jwt") None "k3j9x0q1w2e4"))
    as (v & Hdone & Hv).
  exists rq, w0, k, v. split; [exact Hrun|]. split; [exact Hdone | exact Hv].
Defined.

(* ================================================================== *)
(** ** The page: asking for an image *)
(* ================================================================== *)

Ltac settle_image :=
  unfold image_settle, accepted;
  match goal with
  | |- context [match ?o with NetworkError => _ | Answered _ => _ end] =>
      destruct o as [|[? [?data|]]]; simpl; try reflexivity
  end;
  unfold member;
  match goal with
  | |- context [nullish ?d] =>
      destruct (nullish d) eqn:?; open_prog;
      [destruct d; try discriminate; reflexivity
      |destruct (truthy (prop d "success")); open_prog; reflexivity]
  end.

Lemma generateImage_active (snap : UI) (w : World) :
  whitespace_only (inputText snap) = false -> isLoading snap = false ->
  truthy (activeConversation snap) = true ->
  exists k,
    Page.generateImage snap w =
      Await (image_request (inputText snap) (activeConversation snap)
               (optimistic (caption (inputText snap)) w))
            (log_request (image_request (inputText snap) (activeConversation snap)
                            (optimistic (caption (inputText snap)) w))
               (keyed (optimistic (caption (inputText snap)) w)))
            k /\
    forall o w', k o w' = image_settle o w'.
Proof.
  intros Hin Hl Ha. unfold Page.generateImage.
  rewrite guard_blank, Hin, Hl, Ha. simpl. open_prog. rewrite Ha. open_prog.
  eexists. split; [reflexivity|].
  intros o w'. settle_image.
Qed.

Lemma generateImage_inactive (snap : UI) (w : World) :
  whitespace_only (inputText snap) = false -> isLoading snap = false ->
  truthy (activeConversation snap) = false ->
  exists k0,
    Page.generateImage snap w =
      Await (create_request w) (log_request (create_request w) (keyed w)) k0 /\
    forall o w',
      match created o with
      | Some c =>
          exists k1,
            k0 o w' =
              Await (image_request (inputText snap) c
                       (optimistic (caption (inputText snap)) (adopt snap c w')))
                    (log_request
                       (image_request (inputText snap) c
                          (optimistic (caption (inputText snap)) (adopt snap c w')))
                       (keyed (optimistic (caption (inputText snap)) (adopt snap c w'))))
                    k1 /\
            forall o2 w2, k1 o2 w2 = image_settle o2 w2
      | None =>
          k0 o w' = Done tt w' \/
          exists c, truthy c = false /\ k0 o w' = Done tt (adopt snap c w')
      end.
Proof.
  intros Hin Hl Ha. unfold Page.generateImage.
  rewrite guard_blank, Hin, Hl, Ha. simpl.
  unfold Page.createNewConversation. open_prog.
  eexists. split; [reflexivity|].
  intros o w'. unfold created.
  destruct o as [|[okf [data|]]]; simpl; try (left; reflexivity).
  unfold member. destruct (nullish data) eqn:N; open_prog.
  - destruct data; try discriminate; left; reflexivity.
  - destruct (truthy (prop data "success")); open_prog; [|left; reflexivity].
    destruct (truthy (prop data "conversation")) eqn:C; open_prog.
    + eexists. split; [reflexivity|].
      intros o2 w2. settle_image.
    + right. exists (prop data "conversation"). split; [exact C | reflexivity].
Qed.

Lemma image_settle_failed (o : Outcome) (w : World) :
  accepted o = None ->
  image_settle o w = Done tt (Page.assignIsLoading false (Page.assignIsTyping false w)).
Proof. intros H. unfold image_settle. now rewrite H. Qed.

(** X3: with a conversation on display, [generateImage] asks the
    generate-image route of that conversation with the prompt as typed, and
    shows the prompt behind the words [Generate image: ]; on an answer with
    a truthy [success] the displayed list is the old one, that caption, and
    then the [message] of the answer, which is appended without being
    looked at ([undefined] when the answer has none); both flags are down
    and the input is empty. *)
Theorem X3_image_success_appends_caption_then_message
  (snap : UI) (w : World) (o : Outcome) (data : JSValue) :
  whitespace_only (inputText snap) = false -> isLoading snap = false ->
  truthy (activeConversation snap) = true ->
  accepted o = Some data ->
  exists rq w',
    awaited (Page.generateImage snap w) = Some rq /\
    method rq = POST /\
    route rq = GenerateImage (prop (activeConversation snap) "_id") /\
    body rq = Some (VObj [("prompt", VStr (inputText snap))]) /\
    run (Page.generateImage snap w) [o] = Done tt w' /\
    messages (ui w') =
      messages (ui w) ++
      [Page.userMessage (caption (inputText snap)) (dateISO (env w) (ticks w));
       prop data "message"] /\
    isTyping (ui w') = false /\ isLoading (ui w') = false /\
    inputText (ui w') = "".
Proof.
  intros Hin Hl Ha Hacc.
  destruct (generateImage_active snap w Hin Hl Ha) as (k & -> & Hk).
  eexists _, _. cbn [awaited run]. split; [reflexivity|].
  split; [reflexivity|]. split; [reflexivity|]. split; [reflexivity|].
  rewrite Hk. unfold image_settle. rewrite Hacc.
  split; [reflexivity|]. read_cells. rewrite <- app_assoc.
  repeat split; reflexivity.
Qed.

Lemma X3_witness :
  exists w',
    run (Page.generateImage
           (mkUI [conv "c1" "Sprint"] (conv "c1" "Sprint") [] "a burndown chart" false false)
           (sample_world
              (mkUI [conv "c1" "Sprint"] (conv "c1" "Sprint") [] "a burndown chart"
                    false false)
              (Some "jwt") None "k3j9x0q1w2e4"))
        [Answered (mkResponse true (Some (VObj [("success", VBool true)])))]
      = Done tt w' /\
    messages (ui w') =
      [Page.userMessage "Generate image: a burndown chart" "2025-01-01T00:00:00.000Z";
       VUndefined].
Proof.
  destruct (X3_image_success_appends_caption_then_message
              (mkUI [conv "c1" "Sprint"] (conv "c1" "Sprint") [] "a burndown chart"
                    false false)
              (sample_world
                 (mkUI [conv "c1" "Sprint"] (conv "c1" "Sprint") [] "a burndown chart"
                       false false)
                 (Some "jwt") None "k3j9x0q1w2e4")
              (Answered (mkResponse true (Some (VObj [("success", VBool true)]))))
              (VObj [("success", VBool true)])
              eq_refl eq_refl eq_refl eq_refl)
    as (rq & w' & _ & _ & _ & _ & Hrun & Hm & _).
  exists w'. split; [exact Hrun | exact Hm].
Defined.

(** X4: with a conversation on display, [generateImage] shows the caption
    after the list that was there, raises both flags and issues the
    generate-image request, and the render that follows runs no effect;
    when that request brings no truthy [success] (the transport fails, the
    body cannot be read, or says otherwise), the handler ends with both
    flags down and every other cell as it stood while the handler was
    waiting: the caption stays the last entry of the displayed list,
    nothing is appended and no further request is issued. *)
Theorem X4_image_failure_keeps_caption (v : Page.View) (o : Outcome) :
  Page.dep v = prop (active v) "_id" ->
  same_value (Page.dep v) (Page.dep v) = true ->
  whitespace_only (inputText (ui (Page.world v))) = false ->
  isLoading (ui (Page.world v)) = false ->
  truthy (active v) = true ->
  accepted o = None ->
  exists s1 s2 rq,
    Session.step (Session.idle v) (Session.Invoke Page.generateImage) = Some s1 /\
    is_image_request rq = true /\
    requests (Page.world (Session.view s1)) = requests (Page.world v) ++ [rq] /\
    shown (Session.view s1) =
      shown v ++ [Page.userMessage (caption (inputText (ui (Page.world v))))
                    (dateISO (env (Page.world v)) (ticks (Page.world v)))] /\
    isTyping (ui (Page.world (Session.view s1))) = true /\
    isLoading (ui (Page.world (Session.view s1))) = true /\
    Session.step s1 (Session.Answer o) = Some s2 /\
    Session.waiting s2 = None /\
    shown (Session.view s2) = shown (Session.view s1) /\
    isTyping (ui (Page.world (Session.view s2))) = false /\
    isLoading (ui (Page.world (Session.view s2))) = false /\
    conversations (ui (Page.world (Session.view s2))) =
      conversations (ui (Page.world (Session.view s1))) /\
    active (Session.view s2) = active (Session.view s1) /\
    inputText (ui (Page.world (Session.view s2))) =
      inputText (ui (Page.world (Session.view s1))) /\
    requests (Page.world (Session.view s2)) = requests (Page.world (Session.view s1)) /\
    in_flight (Session.view s2) = in_flight (Session.view s1).
Proof.
  unfold active, shown, in_flight. destruct v as [w d].
  cbn [Page.world Page.dep]. intros -> Hprim Hin Hl Ha Hfail.
  destruct (generateImage_active (ui w) w Hin Hl Ha) as (k & E & Hk).
  unfold Session.step, Session.idle.
  cbn [Session.waiting Session.view Page.world Page.dep].
  rewrite E. cbn [Session.land].
  rewrite commit_rest by (read_world; exact Hprim).
  eexists _, _, (image_request (inputText (ui w)) (activeConversation (ui w))
                   (optimistic (caption (inputText (ui w))) w)).
  split; [reflexivity|].
  cbn [Session.waiting Session.view Page.world Page.dep].
  rewrite Hk, (image_settle_failed _ _ Hfail). cbn [Session.land].
  rewrite commit_rest by (read_world; exact Hprim).
  split; [reflexivity|]. split; [read_world; reflexivity|].
  split; [read_world; reflexivity|]. split; [read_world; reflexivity|].
  split; [read_world; reflexivity|]. split; [reflexivity|].
  cbn [Session.waiting Session.view Page.world Page.dep].
  read_world. repeat split; reflexivity.
Qed.

Lemma X4_witness :
  exists s1 s2,
    Session.step (Session.idle writing_page) (Session.Invoke Page.generateImage)
      = Some s1 /\
    Session.step s1 (Session.Answer (Answered (mkResponse false None))) = Some s2 /\
    shown (Session.view s2) = shown (Session.view s1) /\
    isTyping (ui (Page.world (Session.view s2))) = false /\
    isLoading (ui (Page.world (Session.view s2))) = false.
Proof.
  destruct (X4_image_failure_keeps_caption writing_page
              (Answered (mkResponse false None))
              eq_refl eq_refl eq_refl eq_refl eq_refl eq_refl)
    as (s1 & s2 & rq & H1 & _ & _ & _ & _ & _ & H2 & _ & Hs & Ht & Hl & _).
  exists s1, s2. split; [exact H1|]. split; [exact H2|].
  split; [exact Hs|]. split; [exact Ht | exact Hl].
Defined.

(** X5: [generateImage] with a prompt that is not blank, the loading flag
    down and no conversation on display first issues the request that
    creates a conversation; with the conversation the answer brings it then
    issues the generate-image request for that conversation, the log being
    the two requests in that order, and without one it returns with the
    creation request as the only one issued. *)
Theorem X5_image_creates_conversation_first (snap : UI) (w : World) (o : Outcome) :
  whitespace_only (inputText snap) = false -> isLoading snap = false ->
  truthy (activeConversation snap) = false ->
  exists rq0,
    awaited (Page.generateImage snap w) = Some rq0 /\
    method rq0 = POST /\ route rq0 = Conversations /\
    match created o with
    | Some c =>
        exists rq1 w1,
          awaited (run (Page.generateImage snap w) [o]) = Some rq1 /\
          w1 = world_of (run (Page.generateImage snap w) [o]) /\
          is_image_request rq1 = true /\
          route rq1 = GenerateImage (prop c "_id") /\
          body rq1 = Some (VObj [("prompt", VStr (inputText snap))]) /\
          requests w1 = requests w ++ [rq0; rq1] /\
          conversations (ui w1) = c :: conversations snap /\
          activeConversation (ui w1) = c /\
          exists now,
            messages (ui w1) = [Page.userMessage (caption (inputText snap)) now]
    | None =>
        exists w1,
          run (Page.generateImage snap w) [o] = Done tt w1 /\
          requests w1 = requests w ++ [rq0]
    end.
Proof.
  intros Hin Hl Ha.
  destruct (generateImage_inactive snap w Hin Hl Ha) as (k0 & -> & Hk0).
  eexists. cbn [awaited run]. split; [reflexivity|].
  split; [reflexivity|]. split; [reflexivity|].
  specialize (Hk0 o (log_request (create_request w) (keyed w))).
  destruct (created o) as [c|].
  - destruct Hk0 as (k1 & -> & _). cbn [run awaited world_of].
    eexists _, _. split; [reflexivity|]. split; [reflexivity|].
    split; [reflexivity|]. split; [reflexivity|]. split; [reflexivity|].
    read_world. rewrite <- app_assoc.
    split; [reflexivity|]. split; [reflexivity|]. split; [reflexivity|].
    eexists. reflexivity.
  - destruct Hk0 as [-> | (c & _ & ->)]; eexists;
      (split; [reflexivity|]); read_world; reflexivity.
Qed.

Lemma X5_witness :
  exists rq1,
    awaited (run (Page.generateImage (mkUI [] VNull [] "a chart" false false)
                    (sample_world (mkUI [] VNull [] "a chart" false false) (Some "jwt")
                       None "k3j9x0q1w2e4"))
               [Answered (mkResponse true
                            (Some (VObj [("success", VBool true);
                                         ("conversation", conv "c7" "New Conversation")])))])
      = Some rq1 /\
    route rq1 = GenerateImage (VStr "c7").
Proof.
  destruct (X5_image_creates_conversation_first
              (mkUI [] VNull [] "a chart" false false)
              (sample_world (mkUI [] VNull [] "a chart" false false) (Some "jwt")
                 None "k3j9x0q1w2e4")
              (Answered (mkResponse true
                           (Some (VObj [("success", VBool true);
                                        ("conversation", conv "c7" "New Conversation")]))))
              eq_refl eq_refl eq_refl)
    as (rq0 & _ & _ & _ & H).
  cbn [created parsed] in H.
  destruct H as (rq1 & w1 & Hrq & _ & _ & Hroute & _).
  exists rq1. split; [exact Hrq | exact Hroute].
Defined.

(* ================================================================== *)
(** ** The page: refreshing the list of conversations *)
(* ================================================================== *)

Lemma loadConversations_resume_spec (o : Outcome) (w : World) :
  Page.loadConversations_resume o w =
    match accepted o with
    | Some data =>
        match prop data "conversations" with
        | VArr l => Done tt (Page.assignConversations (fun _ => l) w)
        | _ => Unmodelled w
        end
    | None => Done tt w
    end.
Proof.
  unfold Page.loadConversations_resume, accepted, try_catch, bind.
  destruct o as [|[okf [data|]]]; cbn [bindRes catchRes json parsed raise ret];
    try reflexivity.
  unfold member. destruct (nullish data) eqn:N.
  - destruct data; try discriminate; reflexivity.
  - cbn [bindRes ret]. destruct (truthy (prop data "success")); [|reflexivity].
    unfold Page.store_list. destruct (prop data "conversations"); reflexivity.
Qed.

(** X6: when the request for the list of conversations settles, an answer
    with a truthy [success] and a list replaces the cached list by that
    list, whole, and touches no other cell; any other outcome (transport
    failure, a body that is not JSON or is [null], no truthy [success])
    leaves the world exactly as it was. *)
Theorem X6_list_answer_replaces_or_keeps (o : Outcome) (w : World) :
  (accepted o = None -> Page.loadConversations_resume o w = Done tt w) /\
  (forall data l,
      accepted o = Some data -> prop data "conversations" = VArr l ->
      exists w',
        Page.loadConversations_resume o w = Done tt w' /\
        conversations (ui w') = l /\
        activeConversation (ui w') = activeConversation (ui w) /\
        messages (ui w') = messages (ui w) /\
        inputText (ui w') = inputText (ui w) /\
        isLoading (ui w') = isLoading (ui w) /\
        isTyping (ui w') = isTyping (ui w) /\
        requests w' = requests w).
Proof.
  rewrite loadConversations_resume_spec. split.
  - intros ->. reflexivity.
  - intros data l -> ->. eexists. split; [reflexivity|].
    read_world. repeat split; reflexivity.
Qed.

Lemma X6_witness :
  Page.loadConversations_resume NetworkError
    (sample_world (mkUI [conv "c1" "Sprint"] VNull [] "" false false) None None
       "k3j9x0q1w2e4")
    = Done tt (sample_world (mkUI [conv "c1" "Sprint"] VNull [] "" false false) None
                 None "k3j9x0q1w2e4") /\
  exists w',
    Page.loadConversations_resume
      (Answered (mkResponse true
                   (Some (VObj [("success", VBool true);
                                ("conversations", VArr [conv "c2" "Retro"])]))))
      (sample_world (mkUI [conv "c1" "Sprint"] VNull [] "" false false) None None
         "k3j9x0q1w2e4") = Done tt w' /\
    conversations (ui w') = [conv "c2" "Retro"].
Proof.
  split.
  - apply (proj1 (X6_list_answer_replaces_or_keeps NetworkError _)). reflexivity.
  - destruct (proj2 (X6_list_answer_replaces_or_keeps
                       (Answered (mkResponse true
                          (Some (VObj [("success", VBool true);
                                       ("conversations", VArr [conv "c2" "Retro"])]))))
                       (sample_world (mkUI [conv "c1" "Sprint"] VNull [] "" false false)
                          None None "k3j9x0q1w2e4"))
                (VObj [("success", VBool true);
                       ("conversations", VArr [conv "c2" "Retro"])])
                [conv "c2" "Retro"] eq_refl eq_refl)
      as (w' & Hrun & Hl & _).
    exists w'. split; [exact Hrun | exact Hl].
Defined.



(* ================================================================== *)
(** ** The page between events, and while a handler waits *)
(* ================================================================== *)

Lemma same_value_eq (a b : JSValue) : same_value a b = true -> a = b.
Proof.
  destruct a, b; cbn [same_value]; intros H; try discriminate; try reflexivity.
  - apply Bool.eqb_prop in H. now subst.
  - apply Z.eqb_eq in H. now subst.
  - apply String.eqb_eq in H. now subst.
Qed.

Lemma effect_cells (u : UI) (w : World) :
  exists w',
    Page.activeConversationEffect u w = Done tt w' /\
    messages (ui w') = [] /\
    activeConversation (ui w') = activeConversation (ui w) /\
    conversations (ui w') = conversations (ui w).
Proof.
  unfold Page.activeConversationEffect.
  destruct (truthy (activeConversation u)).
  - unfold bind, Page.setMessages, modify. cbn [bindRes].
    rewrite loadMessages_spec. eexists. split; [reflexivity|].
    read_cells. repeat split; reflexivity.
  - unfold Page.setMessages, modify. eexists. split; [reflexivity|].
    read_cells. repeat split; reflexivity.
Qed.

Lemma commit_dep (v : Page.View) :
  Page.dep (Page.commit v) = prop (active (Page.commit v)) "_id".
Proof.
  unfold Page.commit, active.
  destruct (same_value (prop (activeConversation (ui (Page.world v))) "_id")
              (Page.dep v)) eqn:E.
  - apply same_value_eq in E. now rewrite E.
  - cbn [Page.dep Page.world].
    destruct (effect_cells (ui (Page.world v)) (Page.world v)) as (w' & -> & _ & Ha & _).
    cbn [world_of]. now rewrite Ha.
Qed.

(** The hypothesis the statements about a view make on [Page.dep] holds of
    every view the page reaches: each step ends with a render. *)
Lemma reachable_dep (w : World) (events : list Page.Event) (v : Page.View) :
  Page.steps (Page.mount w) events = Some v ->
  Page.dep v = prop (active v) "_id".
Proof.
  assert (Hstep : forall v0 e v1, Page.step v0 e = Some v1 ->
                                  Page.dep v1 = prop (active v1) "_id").
  { intros v0 [c | i o] v1; unfold Page.step.
    - intros H. injection H as <-. apply commit_dep.
    - destruct (Page.settle i o (Page.world v0)); [|discriminate].
      intros H. injection H as <-. apply commit_dep. }
  assert (Hmount : Page.dep (Page.mount w) = prop (active (Page.mount w)) "_id")
    by reflexivity.
  revert Hmount. generalize (Page.mount w) as v0.
  induction events as [|e rest IH]; intros v0 H0; cbn [Page.steps].
  - intros H. injection H as <-. exact H0.
  - destruct (Page.step v0 e) as [v1|] eqn:E; [|discriminate].
    apply IH. eapply Hstep, E.
Qed.

Lemma session_step_dep (s s' : Session.State) (e : Session.Event) :
  Session.step s e = Some s' ->
  Page.dep (Session.view s') = prop (active (Session.view s')) "_id".
Proof.
  assert (Hland : forall d r s1, Session.land d r = Some s1 ->
            Page.dep (Session.view s1) = prop (active (Session.view s1)) "_id").
  { intros d [a w|x w|rq w k|w] s1 H; cbn [Session.land] in H;
      try discriminate; injection H as <-; apply commit_dep. }
  unfold Session.step. destruct e as [text|handler|o|i o].
  - intros H. injection H as <-. apply commit_dep.
  - destruct (Session.waiting s); [discriminate|]. apply Hland.
  - destruct (Session.waiting s); [|discriminate]. apply Hland.
  - destruct (Page.settle i o (Page.world (Session.view s))); [|discriminate].
    intros H. injection H as <-. apply commit_dep.
Qed.

(** A render that finds another [_id] than the one of the last run of the
    effect, with a conversation on display: the list is emptied and the
    messages of that conversation are asked for. *)
Lemma commit_effect (w : World) (d : JSValue) :
  truthy (activeConversation (ui w)) = true ->
  same_value (prop (activeConversation (ui w)) "_id") d = false ->
  Page.commit (Page.mkView w d) =
    Page.mkView
      (messages_requested (prop (activeConversation (ui w)) "_id")
         (Page.assignMessages (fun _ => []) w))
      (prop (activeConversation (ui w)) "_id").
Proof.
  intros Ha Hd. unfold Page.commit. cbn [Page.world Page.dep]. rewrite Hd.
  unfold Page.activeConversationEffect. rewrite Ha.
  unfold bind, Page.setMessages, modify. cbn [bindRes].
  rewrite loadMessages_spec. reflexivity.
Qed.

Lemma created_truthy (o : Outcome) (c : JSValue) :
  created o = Some c -> truthy c = true.
Proof.
  unfold created. destruct o as [|[okf [data|]]]; try discriminate.
  cbn [parsed]. destruct (truthy (prop data "success")); [|discriminate].
  destruct (truthy (prop data "conversation")) eqn:T; [|discriminate].
  cbn [andb]. intros H. injection H as <-. exact T.
Qed.

Lemma prop_of_falsy (a : JSValue) (k : string) :
  truthy a = false -> prop a k = VUndefined.
Proof. destruct a; intros H; try discriminate; reflexivity. Qed.

(** X8: a send with no conversation on display, on the page.  The handler
    asks for a conversation and waits.  When the answer brings one whose
    [_id] the effect has not run for, the handler adopts it, shows the
    user's message and issues the request for the reply; the render that
    follows runs the effect for the new [_id], which empties the displayed
    list and asks for the messages of the new conversation.  While the
    handler waits for the reply the list on display is therefore empty,
    both flags are up, and the log holds the creation request, the request
    for the reply and the request for the messages, in that order, the
    last one in flight.  A reply that arrives before the messages do is
    then the only entry on display. *)
Theorem X8_effect_runs_under_a_creating_send
  (v : Page.View) (o o2 : Outcome) (c reply : JSValue) :
  Page.dep v = prop (active v) "_id" ->
  whitespace_only (inputText (ui (Page.world v))) = false ->
  isLoading (ui (Page.world v)) = false ->
  truthy (active v) = false ->
  created o = Some c ->
  same_value (prop c "_id") (Page.dep v) = false ->
  same_value (prop c "_id") (prop c "_id") = true ->
  replied o2 = Some reply ->
  exists s1 s2 s3 rq0 rq1 rq2,
    Session.step (Session.idle v) (Session.Invoke Page.sendMessage) = Some s1 /\
    Session.step s1 (Session.Answer o) = Some s2 /\
    requests (Page.world (Session.view s2)) =
      requests (Page.world v) ++ [rq0; rq1; rq2] /\
    method rq0 = POST /\ route rq0 = Conversations /\
    method rq1 = POST /\ route rq1 = ConversationMessages (prop c "_id") /\
    method rq2 = GET /\ route rq2 = ConversationMessages (prop c "_id") /\
    in_flight (Session.view s2) = in_flight v ++ [(rq2, KLoadMessages)] /\
    active (Session.view s2) = c /\
    shown (Session.view s2) = [] /\
    isLoading (ui (Page.world (Session.view s2))) = true /\
    isTyping (ui (Page.world (Session.view s2))) = true /\
    Session.step s2 (Session.Answer o2) = Some s3 /\
    shown (Session.view s3) = [reply] /\
    active (Session.view s3) = c /\
    isLoading (ui (Page.world (Session.view s3))) = false /\
    isTyping (ui (Page.world (Session.view s3))) = false.
Proof.
  unfold active, shown, in_flight. destruct v as [w d].
  cbn [Page.world Page.dep]. intros -> Hin Hl Ha Hc Hnew Hprim Hr.
  rewrite (prop_of_falsy _ "_id" Ha) in Hnew |- *.
  pose proof (created_truthy o c Hc) as Htc.
  destruct (sendMessage_inactive (ui w) w Hin Hl Ha) as (k0 & E & Hk0).
  set (w0 := log_request (create_request w) (keyed w)) in *.
  specialize (Hk0 o w0). rewrite Hc in Hk0. destruct Hk0 as (k1 & E1 & Hk1).
  set (rq1 := send_request (inputText (ui w)) c
                (optimistic (inputText (ui w)) (adopt (ui w) c w0))) in *.
  set (w1 := log_request rq1
               (keyed (optimistic (inputText (ui w)) (adopt (ui w) c w0)))) in *.
  assert (Ha1 : activeConversation (ui w1) = c) by (subst w1; read_world; reflexivity).
  set (rq2 := messages_request (prop c "_id") (Page.assignMessages (fun _ => []) w1)).
  set (w2 := messages_requested (prop c "_id") (Page.assignMessages (fun _ => []) w1)).
  assert (S1 : Session.step (Session.idle (Page.mkView w VUndefined))
                 (Session.Invoke Page.sendMessage)
               = Some (Session.mkState (Page.mkView w0 VUndefined) (Some k0))).
  { unfold Session.step, Session.idle.
    cbn [Session.waiting Session.view Page.world Page.dep].
    rewrite E. cbn [Session.land]. rewrite commit_rest; [reflexivity|].
    subst w0. read_world. now rewrite (prop_of_falsy _ "_id" Ha). }
  assert (S2 : Session.step (Session.mkState (Page.mkView w0 VUndefined) (Some k0))
                 (Session.Answer o)
               = Some (Session.mkState (Page.mkView w2 (prop c "_id")) (Some k1))).
  { unfold Session.step.
    cbn [Session.waiting Session.view Page.world Page.dep].
    rewrite E1. cbn [Session.land]. rewrite commit_effect.
    - rewrite Ha1. reflexivity.
    - rewrite Ha1. exact Htc.
    - rewrite Ha1. exact Hnew. }
  exists (Session.mkState (Page.mkView w0 VUndefined) (Some k0)),
         (Session.mkState (Page.mkView w2 (prop c "_id")) (Some k1)).
  eexists _, (create_request w), rq1, rq2.
  split; [exact S1|]. split; [exact S2|].
  cbn [Session.waiting Session.view Page.world Page.dep].
  split. { subst w2 w1 w0. read_world. rewrite <- !app_assoc. reflexivity. }
  split; [reflexivity|]. split; [reflexivity|]. split; [reflexivity|].
  split; [reflexivity|]. split; [reflexivity|]. split; [reflexivity|].
  split. { subst w2 w1 w0. read_world. reflexivity. }
  split. { subst w2. read_world. exact Ha1. }
  split. { subst w2. read_world. reflexivity. }
  split. { subst w2 w1. read_world. reflexivity. }
  split. { subst w2 w1. read_world. reflexivity. }
  unfold Session.step.
  cbn [Session.waiting Session.view Page.world Page.dep].
  rewrite Hk1. unfold send_settle. rewrite Hr. cbn [Session.land].
  rewrite commit_rest.
  - split; [reflexivity|].
    cbn [Session.waiting Session.view Page.world Page.dep].
    subst w2. read_world. rewrite Ha1. repeat split; reflexivity.
  - subst w2. read_world. rewrite Ha1. exact Hprim.
Qed.

Lemma X8_witness :
  exists s1 s2 s3,
    Session.step (Session.idle typed_page) (Session.Invoke Page.sendMessage)
      = Some s1 /\
    Session.step s1 (Session.Answer (brings (conv "c7" "New Conversation")))
      = Some s2 /\
    shown (Session.view s2) = [] /\
    Session.step s2 (Session.Answer (replies (msg "assistant" "Hi there")))
      = Some s3 /\
    shown (Session.view s3) = [msg "assistant" "Hi there"].
Proof.
  destruct (X8_effect_runs_under_a_creating_send typed_page
              (brings (conv "c7" "New Conversation"))
              (replies (msg "assistant" "Hi there"))
              (conv "c7" "New Conversation") (msg "assistant" "Hi there")
              eq_refl eq_refl eq_refl eq_refl eq_refl eq_refl eq_refl eq_refl)
    as (s1 & s2 & s3 & rq0 & rq1 & rq2 & H1 & H2 & _ & _ & _ & _ & _ & _ & _ & _ &
        _ & Hs2 & _ & _ & H3 & Hs3 & _).
  exists s1, s2, s3. split; [exact H1|]. split; [exact H2|].
  split; [exact Hs2|]. split; [exact H3 | exact Hs3].
Defined.

(** X9: an answer to a request for messages, when it arrives with a truthy
    [success] and a list, replaces the displayed list by that list whatever
    conversation is active at that moment and whatever conversation the
    request was made for; the active conversation is left as it is, and
    the request is in flight no more. *)
Theorem X9_messages_answer_is_shown_whatever_is_active
  (v : Page.View) (i : nat) (rq : Request) (o : Outcome) (l : list JSValue) :
  Page.dep v = prop (active v) "_id" ->
  same_value (Page.dep v) (Page.dep v) = true ->
  in_flight v !! i = Some (rq, KLoadMessages) ->
  loaded o = Some (VArr l) ->
  exists v',
    Page.step v (Page.Settle i o) = Some v' /\
    shown v' = l /\ active v' = active v /\
    in_flight v' = delete i (in_flight v) /\
    requests (Page.world v') = requests (Page.world v).
Proof.
  unfold active, shown, in_flight. intros Hdep Hprim Hi Hl.
  unfold Page.step, Page.settle. rewrite Hi. cbn [Page.resume].
  rewrite loadMessages_resume_spec, Hl.
  unfold Page.commit. cbn [Page.world Page.dep]. read_cells.
  rewrite <- Hdep, Hprim. eexists. split; [reflexivity|].
  cbn [Page.world]. read_cells. repeat split; reflexivity.
Qed.

Lemma X9_witness :
  exists v',
    Page.step
      (default sample_page
         (Page.steps sample_page
            [Page.Click (conv "c1" "Sprint"); Page.Click (conv "c2" "Retro");
             Page.Settle 2 (Page.serves [msg "user" "about the retro"])]))
      (Page.Settle 1 (Page.serves [msg "user" "about the sprint"])) = Some v' /\
    shown v' = [msg "user" "about the sprint"] /\
    prop (active v') "_id" = VStr "c2".
Proof.
  destruct (X9_messages_answer_is_shown_whatever_is_active
              (default sample_page
                 (Page.steps sample_page
                    [Page.Click (conv "c1" "Sprint"); Page.Click (conv "c2" "Retro");
                     Page.Settle 2 (Page.serves [msg "user" "about the retro"])]))
              1
              (mkRequest AiAssistant GET (ConversationMessages (VStr "c1"))
                 (page_headers
                    (sample_world initialUI (Some "jwt")
                       (Some "tab_k3j9x0q1w2e4_mgz7k2p1") "k3j9x0q1w2e4"))
                 None)
              (Page.serves [msg "user" "about the sprint"])
              [msg "user" "about the sprint"]
              eq_refl eq_refl ltac:(vm_compute; reflexivity) eq_refl)
    as (v' & Hstep & Hshown & Hactive & _).
  exists v'. split; [exact Hstep|]. split; [exact Hshown|].
  rewrite Hactive. reflexivity.
Defined.

Lemma mount_spec (w : World) :
  ui w = initialUI ->
  Page.mount w =
    Page.mkView (Page.assignMessages (fun _ => []) (conversations_requested w))
                VUndefined.
Proof.
  intros Hui. unfold Page.mount. rewrite loadConversations_spec. cbn [world_of].
  unfold Page.activeConversationEffect.
  rewrite ui_conversations_requested, Hui. cbn [initialUI activeConversation truthy].
  unfold Page.setMessages, modify. cbn [world_of]. read_cells.
  rewrite ?Hui. reflexivity.
Qed.

(** X10: the first render, on the initial state, issues one request, the
    GET for the list of conversations, and shows nothing; when that request
    is answered with a truthy [success] and a list, the cached list is that
    list, nothing is selected, nothing is displayed and nothing is in
    flight. *)
Theorem X10_first_render_loads_the_list
  (w : World) (o : Outcome) (data : JSValue) (l : list JSValue) :
  ui w = initialUI -> detached w = [] ->
  accepted o = Some data -> prop data "conversations" = VArr l ->
  exists rq v,
    requests (Page.world (Page.mount w)) = requests w ++ [rq] /\
    method rq = GET /\ route rq = Conversations /\
    in_flight (Page.mount w) = [(rq, KLoadConversations)] /\
    shown (Page.mount w) = [] /\
    Page.step (Page.mount w) (Page.Settle 0 o) = Some v /\
    conversations (ui (Page.world v)) = l /\
    shown v = [] /\ active v = VNull /\ in_flight v = [].
Proof.
  intros Hui Hdet Hacc Hlist. unfold in_flight, shown, active.
  rewrite (mount_spec w Hui). cbn [Page.world]. read_cells. rewrite Hdet.
  eexists _, _. split; [reflexivity|]. split; [reflexivity|].
  split; [reflexivity|]. split; [reflexivity|]. split; [reflexivity|].
  unfold Page.step, Page.settle. cbn [Page.world Page.dep]. read_cells.
  rewrite Hdet. cbn [app lookup list_lookup Page.resume].
  rewrite loadConversations_resume_spec, Hacc, Hlist.
  unfold Page.commit. cbn [Page.world Page.dep]. read_cells.
  cbn [ui activeConversation]. rewrite Hui.
  cbn [initialUI activeConversation prop same_value].
  split; [reflexivity|]. cbn [Page.world]. read_cells.
  cbn [ui conversations activeConversation messages detached]. rewrite ?Hui.
  repeat split; reflexivity.
Qed.

Lemma X10_witness :
  exists v,
    Page.step sample_page
      (Page.Settle 0
         (Answered (mkResponse true
                      (Some (VObj [("success", VBool true);
                                   ("conversations", VArr [conv "c1" "Sprint"])])))))
      = Some v /\
    conversations (ui (Page.world v)) = [conv "c1" "Sprint"].
Proof.
  destruct (X10_first_render_loads_the_list
              (sample_world initialUI (Some "jwt") None "k3j9x0q1w2e4")
              (Answered (mkResponse true
                      (Some (VObj [("success", VBool true);
                                   ("conversations", VArr [conv "c1" "Sprint"])]))))
              (VObj [("success", VBool true);
                     ("conversations", VArr [conv "c1" "Sprint"])])
              [conv "c1" "Sprint"]
              eq_refl eq_refl eq_refl eq_refl)
    as (rq & v & _ & _ & _ & _ & _ & Hstep & Hl & _).
  exists v. split; [exact Hstep | exact Hl].
Defined.

(* ================================================================== *)
(** ** The page: more on deleting *)
(* ================================================================== *)

(** X11: [deleteConversation] issues one DELETE for the conversation; when
    the [fetch] rejects (the transport fails), the handler returns with
    every cell of the state as it was: the entry stays in the cached list,
    the active conversation and the displayed messages are kept. *)
Theorem X11_delete_transport_failure_changes_nothing
  (snap : UI) (conversationId : string) (w : World) :
  exists rq w1,
    awaited (Page.deleteConversation snap conversationId w) = Some rq /\
    method rq = DELETE /\ route rq = Conversation (VStr conversationId) /\
    body rq = None /\
    run (Page.deleteConversation snap conversationId w) [NetworkError] = Done tt w1 /\
    ui w1 = ui w /\ requests w1 = requests w ++ [rq] /\ detached w1 = detached w.
Proof.
  destruct (deleteConversation_spec snap conversationId w) as (k & -> & Hk).
  eexists _, _. cbn [awaited run]. rewrite Hk.
  split; [reflexivity|]. split; [reflexivity|]. split; [reflexivity|].
  split; [reflexivity|]. split; [reflexivity|]. read_cells.
  repeat split; reflexivity.
Qed.

Lemma filter_out_twice (conversationId : string) (l : list JSValue) :
  List.filter (fun c => negb (id_is conversationId c))
    (List.filter (fun c => negb (id_is conversationId c)) l) =
  List.filter (fun c => negb (id_is conversationId c)) l.
Proof.
  induction l as [|c l IH]; [reflexivity|]. cbn [List.filter].
  destruct (negb (id_is conversationId c)) eqn:E; [|exact IH].
  cbn [List.filter]. rewrite E. now f_equal.
Qed.

(** X12: deleting is idempotent on the page: after a delete whose [fetch]
    resolved, a second delete of the same conversation, by the handler of
    the render that followed, leaves the cached list, the active
    conversation and the displayed messages as the first delete left
    them. *)
Theorem X12_delete_twice_is_delete_once
  (w : World) (conversationId : string) (res1 res2 : Response) :
  exists w1 w2,
    run (Page.deleteConversation (ui w) conversationId w) [Answered res1]
      = Done tt w1 /\
    run (Page.deleteConversation (ui w1) conversationId w1) [Answered res2]
      = Done tt w2 /\
    ui w2 = ui w1.
Proof.
  destruct (deleteConversation_spec (ui w) conversationId w) as (k & -> & Hk).
  cbn [run]. rewrite Hk. eexists _, _. split; [reflexivity|].
  match goal with
  | |- run (Page.deleteConversation (ui ?W1) _ ?W1) _ = _ /\ _ =>
      destruct (deleteConversation_spec (ui W1) conversationId W1) as (k2 & -> & Hk2);
      assert (Hui1 : ui W1 =
                     if id_is conversationId (activeConversation (ui w))
                     then mkUI (List.filter (fun c => negb (id_is conversationId c))
                                  (conversations (ui w)))
                               VNull [] (inputText (ui w)) (isLoading (ui w))
                               (isTyping (ui w))
                     else mkUI (List.filter (fun c => negb (id_is conversationId c))
                                  (conversations (ui w)))
                               (activeConversation (ui w)) (messages (ui w))
                               (inputText (ui w)) (isLoading (ui w)) (isTyping (ui w)))
        by (rewrite ui_forget; read_cells; reflexivity)
  end.
  cbn [run]. rewrite Hk2. split; [reflexivity|].
  rewrite ui_forget. read_cells. rewrite Hui1.
  destruct (id_is conversationId (activeConversation (ui w))) eqn:E;
    read_cells; cbn [id_is prop strict_eq_string] in *; rewrite ?E;
    rewrite filter_out_twice; reflexivity.
Qed.

(* ================================================================== *)
(** ** More on the session key and the headers *)
(* ================================================================== *)

(** X13: when the tab storage holds a non-empty key, [getTabSessionKey]
    answers it and changes nothing, neither the storage nor the random
    source nor the clock being touched; when it holds none, or the empty
    string, the answer is [tab_], the random part, an underscore and the
    time part, asked for in that order, and that key is what the storage
    holds afterwards. *)
Theorem X13_stored_key_reused_missing_key_made (w : World) :
  (forall key, tab_session_key w = Some key -> key <> "" ->
               getTabSessionKey w = Done key w) /\
  (tab_session_key w = None \/ tab_session_key w = Some "" ->
   exists w',
     getTabSessionKey w =
       Done ("tab_" +:+ mathRandom36 (env w) (ticks w) +:+ "_" +:+
             dateNow36 (env w) (S (ticks w))) w' /\
     tab_session_key w' =
       Some ("tab_" +:+ mathRandom36 (env w) (ticks w) +:+ "_" +:+
             dateNow36 (env w) (S (ticks w))) /\
     ticks w' = S (S (ticks w)) /\
     ui w' = ui w /\ token w' = token w /\ requests w' = requests w).
Proof.
  rewrite getTabSessionKey_spec. unfold session_key, keyed. split.
  - intros key E Hne. rewrite E. cbn [truthy_item default].
    destruct (String.eqb_spec key "") as [->|_]; [contradiction|reflexivity].
  - intros [E | E]; rewrite E; cbn [truthy_item String.eqb negb];
      eexists; (split; [reflexivity|]); repeat split; reflexivity.
Qed.

Lemma X13_witness :
  getTabSessionKey
    (sample_world initialUI None (Some "tab_abc_123") "k3j9x0q1w2e4")
  = Done "tab_abc_123"
      (sample_world initialUI None (Some "tab_abc_123") "k3j9x0q1w2e4") /\
  exists w',
    getTabSessionKey (sample_world initialUI None (Some "") "k3j9x0q1w2e4")
    = Done "tab_k3j9x0q1w2e4_mgz7k2p1" w'.
Proof.
  split.
  - apply (proj1 (X13_stored_key_reused_missing_key_made _) "tab_abc_123");
      [reflexivity | discriminate].
  - destruct (proj2 (X13_stored_key_reused_missing_key_made
                       (sample_world initialUI None (Some "") "k3j9x0q1w2e4"))
                (or_intror eq_refl)) as (w' & Hrun & _).
    exists w'. exact Hrun.
Defined.

Lemma builder_spec (b : Prog (gmap string string)) (w : World) :
  In b builders ->
  exists h, b w = Done h (keyed w) /\ h !! "X-Tab-Session-Key" = Some (session_key w).
Proof.
  intros [<- | [<- | [<- | []]]];
    unfold Foundry.getAuthHeaders, Local.getHeaders, Page.getAuthHeaders,
      Foundry.getToken, localStorage_getToken, bind, ret;
    cbn [bindRes]; rewrite getTabSessionKey_spec; cbn [bindRes];
    eexists; (split; [reflexivity|]);
    try (destruct (truthy_item (token w))); by simplify_map_eq.
Qed.

(** X14: the three header builders share one session key: once any of them
    has run, every later run of any of them, in any world whose tab storage
    is as that first run left it, sends the same [X-Tab-Session-Key] as the
    first did. *)
Theorem X14_builders_share_the_session_key
  (first later : Prog (gmap string string)) (w w2 : World) :
  In first builders -> In later builders ->
  tab_session_key w2 = tab_session_key (world_of (first w)) ->
  header (later w2) "X-Tab-Session-Key" = header (first w) "X-Tab-Session-Key" /\
  header (first w) "X-Tab-Session-Key" = Some (session_key w).
Proof.
  intros H1 H2 Hkey.
  destruct (builder_spec first w H1) as (h1 & E1 & Hh1).
  destruct (builder_spec later w2 H2) as (h2 & E2 & Hh2).
  rewrite E1 in *. rewrite E2. cbn [header world_of] in *.
  rewrite Hh1, Hh2. split; [|reflexivity]. f_equal.
  apply session_key_stored.
  - rewrite Hkey. apply keyed_key.
  - rewrite <- keyed_key. apply keyed_truthy.
Qed.

Lemma X14_witness :
  header (Page.getAuthHeaders
            (world_of (Foundry.getAuthHeaders
                         (sample_world initialUI None None "k3j9x0q1w2e4"))))
         "X-Tab-Session-Key"
  = header (Foundry.getAuthHeaders (sample_world initialUI None None "k3j9x0q1w2e4"))
           "X-Tab-Session-Key".
Proof.
  apply (X14_builders_share_the_session_key
           Foundry.getAuthHeaders Page.getAuthHeaders
           (sample_world initialUI None None "k3j9x0q1w2e4")).
  - left. reflexivity.
  - right. right. left. reflexivity.
  - reflexivity.
Defined.

(* ================================================================== *)
(** ** More on the two service modules *)
(* ================================================================== *)

(** X15: on an answer with a 2xx status and a JSON body, every operation
    of either service resolves with that body as it is; neither looks into
    it, so a body that says [success: false], or the bare [null], is handed
    to the caller like any other. *)
Theorem X15_services_pass_the_body_through
  (fop : Foundry.Op) (lop : Local.Op) (w : World) (res : Response) (data : JSValue) :
  ok res = true -> parsed res = Some data ->
  (exists w', run (Foundry.invoke fop w) [Answered res] = Done data w' /\
              ui w' = ui w) /\
  (exists w', run (Local.invoke lop w) [Answered res] = Done data w' /\
              ui w' = ui w).
Proof.
  intros Hok Hbody. split.
  - destruct (foundry_invoke_call fop) as (m & r & b & ->).
    destruct (hosted_exchange_spec m r b (Foundry.fallback fop) w)
      as (rq & k & -> & _ & _ & _ & _ & Hk).
    cbn [run]. rewrite Hk. unfold foundry_settle. rewrite Hbody, Hok.
    eexists. split; [reflexivity|]. now read_cells.
  - destruct (local_invoke_call lop) as (m & r & b & ->).
    destruct (local_exchange_spec m r b w) as (rq & k & -> & _ & _ & _ & _ & Hk).
    cbn [run]. rewrite Hk. unfold local_settle. rewrite Hbody.
    eexists. split; [reflexivity|]. now read_cells.
Qed.

Lemma X15_witness :
  (exists w', run (Foundry.invoke Foundry.HealthOp
                     (sample_world initialUI (Some "jwt") None "k3j9x0q1w2e4"))
                [Answered (mkResponse true (Some VNull))] = Done VNull w') /\
  (exists w', run (Local.invoke Local.HealthOp
                     (sample_world initialUI (Some "jwt") None "k3j9x0q1w2e4"))
                [Answered (mkResponse true (Some VNull))] = Done VNull w').
Proof.
  destruct (X15_services_pass_the_body_through
              Foundry.HealthOp Local.HealthOp
              (sample_world initialUI (Some "jwt") None "k3j9x0q1w2e4")
              (mkResponse true (Some VNull)) VNull eq_refl eq_refl)
    as ((w1 & H1 & _) & (w2 & H2 & _)).
  split; [exists w1; exact H1 | exists w2; exact H2].
Defined.

(** X16: every operation of either service rejects when the transport
    fails, and rejects with the parser's error when the body is not JSON,
    whatever the status of the answer, 2xx included. *)
Theorem X16_services_reject_without_a_body
  (fop : Foundry.Op) (lop : Local.Op) (w : World) (res : Response) :
  parsed res = None ->
  (exists w', run (Foundry.invoke fop w) [NetworkError] = Raise FetchFailed w') /\
  (exists w', run (Local.invoke lop w) [NetworkError] = Raise FetchFailed w') /\
  (exists w', run (Foundry.invoke fop w) [Answered res] = Raise SyntaxError w') /\
  (exists w', run (Local.invoke lop w) [Answered res] = Raise SyntaxError w').
Proof.
  intros Hbody.
  destruct (foundry_invoke_call fop) as (m & r & b & ->).
  destruct (hosted_exchange_spec m r b (Foundry.fallback fop) w)
    as (rq & k & -> & _ & _ & _ & _ & Hk).
  destruct (local_invoke_call lop) as (m' & r' & b' & ->).
  destruct (local_exchange_spec m' r' b' w) as (rq' & k' & -> & _ & _ & _ & _ & Hk').
  cbn [run]. rewrite !Hk, !Hk'. unfold foundry_settle, local_settle.
  rewrite Hbody. repeat split; eexists; reflexivity.
Qed.

Lemma X16_witness :
  exists w',
    run (Foundry.invoke Foundry.ListConversations
           (sample_world initialUI (Some "jwt") None "k3j9x0q1w2e4"))
        [Answered (mkResponse true None)] = Raise SyntaxError w'.
Proof.
  destruct (X16_services_reject_without_a_body
              Foundry.ListConversations Local.ListConversations
              (sample_world initialUI (Some "jwt") None "k3j9x0q1w2e4")
              (mkResponse true None) eq_refl)
    as (_ & _ & H & _).
  exact H.
Defined.

(** X17: [createConversation] of either service sends, by POST to the
    conversations route, the title it is given; only an omitted title
    ([undefined]) is replaced, by [Agent Chat] in the hosted service and by
    [Local AI Chat] in the local one, so that [null] is sent as [null].
    [sendMessage] likewise sends [include_user_context: true] only when the
    flag is omitted, and [false] when given. *)
Theorem X17_defaults_replace_undefined_only
  (title conversationId content flag : JSValue) (w : World) :
  (exists rq, awaited (Foundry.createConversation title w) = Some rq /\
              service rq = FoundryAgent /\ method rq = POST /\
              route rq = Conversations /\
              (title = VUndefined ->
               body rq = Some (VObj [("title", VStr "Agent Chat")])) /\
              (title <> VUndefined -> body rq = Some (VObj [("title", title)]))) /\
  (exists rq, awaited (Local.createConversation title w) = Some rq /\
              service rq = LocalAgent /\ method rq = POST /\
              route rq = Conversations /\
              (title = VUndefined ->
               body rq = Some (VObj [("title", VStr "Local AI Chat")])) /\
              (title <> VUndefined -> body rq = Some (VObj [("title", title)]))) /\
  (forall send,
      send = Foundry.sendMessage \/ send = Local.sendMessage ->
      exists rq, awaited (send conversationId content flag w) = Some rq /\
                 method rq = POST /\ route rq = ConversationMessages conversationId /\
                 (flag = VUndefined ->
                  body rq = Some (VObj [("content", content);
                                        ("include_user_context", VBool true)])) /\
                 (flag <> VUndefined ->
                  body rq = Some (VObj [("content", content);
                                        ("include_user_context", flag)]))).
Proof.
  destruct (foundry_headers w) as (hf & Hf).
  destruct (local_headers w) as (hl & Hl).
  split; [|split].
  - unfold Foundry.createConversation, bind. rewrite Hf. cbn [bindRes fetch awaited].
    eexists. split; [reflexivity|]. cbn [service method route body].
    repeat split; try reflexivity.
    + intros ->. reflexivity.
    + intros Hne. destruct title; try reflexivity. contradiction.
  - unfold Local.createConversation, bind. rewrite Hl. cbn [bindRes fetch awaited].
    eexists. split; [reflexivity|]. cbn [service method route body].
    repeat split; try reflexivity.
    + intros ->. reflexivity.
    + intros Hne. destruct title; try reflexivity. contradiction.
  - intros send [-> | ->];
      unfold Foundry.sendMessage, Local.sendMessage, bind; rewrite ?Hf, ?Hl;
      cbn [bindRes fetch awaited]; eexists; (split; [reflexivity|]);
      cbn [service method route body]; repeat split; try reflexivity;
      try (intros ->; reflexivity);
      intros Hne; destruct flag; try reflexivity; contradiction.
Qed.

Lemma X17_witness :
  exists rq,
    awaited (Foundry.createConversation VNull
               (sample_world initialUI (Some "jwt") None "k3j9x0q1w2e4")) = Some rq /\
    body rq = Some (VObj [("title", VNull)]).
Proof.
  destruct (X17_defaults_replace_undefined_only VNull VNull VNull VNull
              (sample_world initialUI (Some "jwt") None "k3j9x0q1w2e4"))
    as ((rq & Hrq & _ & _ & _ & _ & Hbody) & _).
  exists rq. split; [exact Hrq|]. apply Hbody. discriminate.
Defined.

(* ================================================================== *)
(** ** More on sending *)
(* ================================================================== *)

Lemma page_headers_cells (w : World) :
  page_headers w !! "X-Tab-Session-Key" = Some (session_key w) /\
  page_headers w !! "Authorization" = Some (bearer (token w)) /\
  page_headers w !! "Content-Type" = Some "application/json".
Proof. unfold page_headers. repeat split; by simplify_map_eq. Qed.

(** X18: with a conversation on display, [sendMessage] posts to the
    messages route of that conversation the input text exactly as it was
    typed (the guard trims, the request does not) with [stream: false], and
    by the time the request is out the input is empty, both flags are up
    and the user's entry, with the same untrimmed text, is the last of the
    displayed list. *)
Theorem X18_send_request_carries_the_text_as_typed (snap : UI) (w : World) :
  whitespace_only (inputText snap) = false -> isLoading snap = false ->
  truthy (activeConversation snap) = true ->
  exists rq,
    awaited (Page.sendMessage snap w) = Some rq /\
    service rq = AiAssistant /\ method rq = POST /\
    route rq = ConversationMessages (prop (activeConversation snap) "_id") /\
    body rq = Some (VObj [("content", VStr (inputText snap)); ("stream", VBool false)]) /\
    headers rq !! "Content-Type" = Some "application/json" /\
    headers rq !! "Authorization" = Some (bearer (token w)) /\
    requests (world_of (Page.sendMessage snap w)) = requests w ++ [rq] /\
    ui (world_of (Page.sendMessage snap w)) =
      mkUI (conversations (ui w)) (activeConversation (ui w))
           (messages (ui w) ++
            [Page.userMessage (inputText snap) (dateISO (env w) (ticks w))])
           "" true true.
Proof.
  intros Hin Hl Ha.
  destruct (sendMessage_active snap w Hin Hl Ha) as (k & -> & _).
  cbn [awaited world_of]. eexists. split; [reflexivity|].
  cbn [send_request service method route body headers].
  destruct (page_headers_cells (optimistic (inputText snap) w)) as (_ & Hauth & Hct).
  split; [reflexivity|]. split; [reflexivity|]. split; [reflexivity|].
  split; [reflexivity|]. split; [exact Hct|]. split; [exact Hauth|].
  read_cells. split; reflexivity.
Qed.

Lemma X18_witness :
  exists rq,
    awaited (Page.sendMessage
               (mkUI [] (conv "c1" "Sprint") [] "  hi  " false false)
               (sample_world (mkUI [] (conv "c1" "Sprint") [] "  hi  " false false)
                  (Some "jwt") None "k3j9x0q1w2e4")) = Some rq /\
    body rq = Some (VObj [("content", VStr "  hi  "); ("stream", VBool false)]).
Proof.
  destruct (X18_send_request_carries_the_text_as_typed
              (mkUI [] (conv "c1" "Sprint") [] "  hi  " false false)
              (sample_world (mkUI [] (conv "c1" "Sprint") [] "  hi  " false false)
                 (Some "jwt") None "k3j9x0q1w2e4")
              eq_refl eq_refl eq_refl)
    as (rq & Hrq & _ & _ & _ & Hbody & _).
  exists rq. split; [exact Hrq | exact Hbody].
Defined.

(** X19: a send that has to create its conversation signs both of its
    requests alike: the creation request and the message request carry the
    same [X-Tab-Session-Key], the key the tab storage held or the one the
    first of the two made up, and the same [Authorization]. *)
Theorem X19_both_requests_of_a_send_carry_the_same_key
  (snap : UI) (w : World) (o : Outcome) (c : JSValue) :
  whitespace_only (inputText snap) = false -> isLoading snap = false ->
  truthy (activeConversation snap) = false ->
  created o = Some c ->
  sent_header (Page.sendMessage snap w) "X-Tab-Session-Key" = Some (session_key w) /\
  sent_header (run (Page.sendMessage snap w) [o]) "X-Tab-Session-Key"
    = Some (session_key w) /\
  sent_header (Page.sendMessage snap w) "Authorization" = Some (bearer (token w)) /\
  sent_header (run (Page.sendMessage snap w) [o]) "Authorization"
    = Some (bearer (token w)).
Proof.
  intros Hin Hl Ha Hc.
  destruct (sendMessage_inactive snap w Hin Hl Ha) as (k0 & -> & Hk0).
  cbn [run sent_header].
  specialize (Hk0 o (log_request (create_request w) (keyed w))).
  rewrite Hc in Hk0. destruct Hk0 as (k1 & -> & _).
  cbn [run sent_header create_request send_request headers].
  destruct (page_headers_cells w) as (Hk & Ha0 & _).
  match goal with
  | |- context [page_headers (optimistic ?t ?W0)] =>
      let W := constr:(optimistic t W0) in
      destruct (page_headers_cells W) as (Hk1 & Ha1 & _);
      assert (Hs : session_key W = session_key w)
        by (apply session_key_stored;
            [exact (keyed_key w) | rewrite <- keyed_key; apply keyed_truthy]);
      assert (Ht : token W = token w) by apply keyed_token
  end.
  rewrite Hk, Ha0, Hk1, Ha1, Hs, Ht. repeat split; reflexivity.
Qed.

Lemma X19_witness :
  sent_header
    (run (Page.sendMessage (mkUI [] VNull [] "Hello" false false)
            (sample_world (mkUI [] VNull [] "Hello" false false) (Some "jwt") None
               "k3j9x0q1w2e4"))
       [Answered (mkResponse true
                    (Some (VObj [("success", VBool true);
                                 ("conversation", conv "c7" "New Conversation")])))])
    "X-Tab-Session-Key"
  = Some "tab_k3j9x0q1w2e4_mgz7k2p1".
Proof.
  destruct (X19_both_requests_of_a_send_carry_the_same_key
              (mkUI [] VNull [] "Hello" false false)
              (sample_world (mkUI [] VNull [] "Hello" false false) (Some "jwt") None
                 "k3j9x0q1w2e4")
              (Answered (mkResponse true
                    (Some (VObj [("success", VBool true);
                                 ("conversation", conv "c7" "New Conversation")]))))
              (conv "c7" "New Conversation")
              eq_refl eq_refl eq_refl eq_refl)
    as (_ & H & _).
  exact H.
Defined.

(* ================================================================== *)
(** ** The labels of the page *)
(* ================================================================== *)

(** X20: [formatTimestamp] shows [Just now] for anything less than a minute
    old, timestamps in the future included; a whole number of minutes
    between 1 and 59, rounded down, below an hour; a whole number of hours
    between 1 and 23, rounded down, below a day; and hands a date of a day
    or more, or one that could not be read, to the locale. *)
Theorem X20_timestamp_labels
  (toLocaleDateString : option Z -> string) (now d : Z) :
  ((now - d < 60000)%Z ->
   Display.formatTimestamp toLocaleDateString now (Some d) = "Just now") /\
  ((60000 <= now - d < 3600000)%Z ->
   exists m, (1 <= m <= 59)%Z /\ (60000 * m <= now - d < 60000 * (m + 1))%Z /\
             Display.formatTimestamp toLocaleDateString now (Some d)
             = pretty m +:+ "m ago") /\
  ((3600000 <= now - d < 86400000)%Z ->
   exists h, (1 <= h <= 23)%Z /\ (3600000 * h <= now - d < 3600000 * (h + 1))%Z /\
             Display.formatTimestamp toLocaleDateString now (Some d)
             = pretty h +:+ "h ago") /\
  ((86400000 <= now - d)%Z ->
   Display.formatTimestamp toLocaleDateString now (Some d)
   = toLocaleDateString (Some d)) /\
  Display.formatTimestamp toLocaleDateString now None = toLocaleDateString None.
Proof.
  unfold Display.formatTimestamp. cbv zeta.
  split; [|split; [|split; [|split]]].
  - intros H. apply Z.ltb_lt in H. now rewrite H.
  - intros [H1 H2].
    assert (E1 : (now - d <? 60000)%Z = false) by (apply Z.ltb_ge; lia).
    assert (E2 : (now - d <? 3600000)%Z = true) by (apply Z.ltb_lt; lia).
    rewrite E1, E2. exists ((now - d) / 60000)%Z.
    pose proof (Z.div_mod (now - d) 60000 ltac:(lia)) as Hdm.
    pose proof (Z.mod_pos_bound (now - d) 60000 ltac:(lia)) as Hmod.
    repeat split; try reflexivity; nia.
  - intros [H1 H2].
    assert (E1 : (now - d <? 60000)%Z = false) by (apply Z.ltb_ge; lia).
    assert (E2 : (now - d <? 3600000)%Z = false) by (apply Z.ltb_ge; lia).
    assert (E3 : (now - d <? 86400000)%Z = true) by (apply Z.ltb_lt; lia).
    rewrite E1, E2, E3. exists ((now - d) / 3600000)%Z.
    pose proof (Z.div_mod (now - d) 3600000 ltac:(lia)) as Hdm.
    pose proof (Z.mod_pos_bound (now - d) 3600000 ltac:(lia)) as Hmod.
    repeat split; try reflexivity; nia.
  - intros H.
    assert (E1 : (now - d <? 60000)%Z = false) by (apply Z.ltb_ge; lia).
    assert (E2 : (now - d <? 3600000)%Z = false) by (apply Z.ltb_ge; lia).
    assert (E3 : (now - d <? 86400000)%Z = false) by (apply Z.ltb_ge; lia).
    now rewrite E1, E2, E3.
  - reflexivity.
Qed.

Lemma X20_witness :
  Display.formatTimestamp (fun _ => "1/1/2025") 1000%Z (Some 5000%Z) = "Just now" /\
  (exists m, (1 <= m <= 59)%Z /\
             Display.formatTimestamp (fun _ => "1/1/2025") 3599999%Z (Some 0%Z)
             = pretty m +:+ "m ago") /\
  Display.formatTimestamp (fun _ => "1/1/2025") 86400000%Z (Some 0%Z) = "1/1/2025".
Proof.
  destruct (X20_timestamp_labels (fun _ => "1/1/2025") 1000%Z 5000%Z) as (H1 & _).
  destruct (X20_timestamp_labels (fun _ => "1/1/2025") 3599999%Z 0%Z) as (_ & H2 & _).
  destruct (X20_timestamp_labels (fun _ => "1/1/2025") 86400000%Z 0%Z)
    as (_ & _ & _ & H4 & _).
  split; [apply H1; lia|]. split; [|apply H4; lia].
  destruct (H2 ltac:(lia)) as (m & Hm & _ & E). exists m. split; [exact Hm | exact E].
Defined.

(* ================================================================== *)
(** ** One send at a time *)
(* ================================================================== *)

(** X21: while [sendMessage] is suspended on its request for a reply, the
    state it has left blocks every further send: [sendMessage] and
    [generateImage] of the render of that state return at once, whatever
    the input holds, issuing nothing and changing nothing. *)
Theorem X21_no_second_send_while_waiting_for_the_reply
  (snap : UI) (w : World) (pre : list Outcome) (rq : Request) :
  awaited (run (Page.sendMessage snap w) pre) = Some rq ->
  is_send_request rq = true ->
  let w1 := world_of (run (Page.sendMessage snap w) pre) in
  forall text,
    Page.sendMessage (mkUI (conversations (ui w1)) (activeConversation (ui w1))
                           (messages (ui w1)) text (isLoading (ui w1))
                           (isTyping (ui w1))) w1 = Done tt w1 /\
    Page.generateImage (mkUI (conversations (ui w1)) (activeConversation (ui w1))
                             (messages (ui w1)) text (isLoading (ui w1))
                             (isTyping (ui w1))) w1 = Done tt w1.
Proof.
  intros Hrq Hsend w1 text. subst w1.
  destruct (run (Page.sendMessage snap w) pre) as [| |rq' w1 k|] eqn:Hrun;
    try discriminate Hrq.
  injection Hrq as ->.
  destruct (sendMessage_suspended snap w pre rq w1 k Hrun Hsend)
    as (_ & _ & Hl & _).
  cbn [world_of]. apply guard_returns. right. cbn [isLoading]. exact Hl.
Qed.

Lemma X21_witness :
  Page.sendMessage
    (mkUI (conversations (ui waiting_world)) (activeConversation (ui waiting_world))
          (messages (ui waiting_world)) "again" (isLoading (ui waiting_world))
          (isTyping (ui waiting_world)))
    waiting_world
  = Done tt waiting_world.
Proof.
  exact (proj1 (X21_no_second_send_while_waiting_for_the_reply
                  (mkUI [] (conv "c1" "Sprint") [] "Hello" false false)
                  (sample_world (mkUI [] (conv "c1" "Sprint") [] "Hello" false false)
                     (Some "jwt") None "k3j9x0q1w2e4")
                  []
                  (mkRequest AiAssistant POST (ConversationMessages (VStr "c1"))
                     (page_headers
                        (sample_world initialUI (Some "jwt") None "k3j9x0q1w2e4"))
                     (Some (VObj [("content", VStr "Hello"); ("stream", VBool false)])))
                  ltac:(vm_compute; reflexivity) eq_refl "again")).
Defined.

(** X22: while [sendMessage] is suspended on the request that creates its
    conversation, nothing of the state has changed yet, the loading flag
    least of all: a second [sendMessage] of the same render is not blocked
    and issues a second creation request. *)
Theorem X22_send_is_not_blocked_while_creating (w : World) :
  whitespace_only (inputText (ui w)) = false -> isLoading (ui w) = false ->
  truthy (activeConversation (ui w)) = false ->
  let w0 := world_of (Page.sendMessage (ui w) w) in
  ui w0 = ui w /\
  exists rq0 rq1,
    awaited (Page.sendMessage (ui w) w) = Some rq0 /\
    awaited (Page.sendMessage (ui w) w0) = Some rq1 /\
    route rq0 = Conversations /\ route rq1 = Conversations /\
    method rq0 = POST /\ method rq1 = POST /\
    requests (world_of (Page.sendMessage (ui w) w0)) = requests w ++ [rq0; rq1].
Proof.
  intros Hin Hl Ha w0. subst w0.
  destruct (sendMessage_inactive (ui w) w Hin Hl Ha) as (k0 & -> & _).
  cbn [world_of awaited]. split; [now read_cells|].
  match goal with
  | |- context [Page.sendMessage (ui w) ?W0] =>
      destruct (sendMessage_inactive (ui w) W0 Hin Hl Ha) as (k1 & -> & _)
  end.
  cbn [world_of awaited]. eexists _, _. split; [reflexivity|]. split; [reflexivity|].
  split; [reflexivity|]. split; [reflexivity|]. split; [reflexivity|].
  split; [reflexivity|]. read_cells. now rewrite <- app_assoc.
Qed.

Lemma X22_witness :
  exists rq0 rq1,
    requests
      (world_of
         (Page.sendMessage (mkUI [] VNull [] "Hello" false false)
            (world_of
               (Page.sendMessage (mkUI [] VNull [] "Hello" false false)
                  (sample_world (mkUI [] VNull [] "Hello" false false) (Some "jwt")
                     None "k3j9x0q1w2e4")))))
    = [rq0; rq1] /\
    route rq0 = Conversations /\ route rq1 = Conversations.
Proof.
  destruct (X22_send_is_not_blocked_while_creating
              (sample_world (mkUI [] VNull [] "Hello" false false) (Some "jwt") None
                 "k3j9x0q1w2e4")
              eq_refl eq_refl eq_refl)
    as (_ & rq0 & rq1 & _ & _ & Hr0 & Hr1 & _ & _ & Hlog).
  exists rq0, rq1. split; [exact Hlog|]. split; [exact Hr0 | exact Hr1].
Defined.
